(** * trax.rl.base_trainer: a shallow embedding of [BaseTrainer]

    The Python class [BaseTrainer] (src/trax/rl/base_trainer.py) is embedded
    as pure functions over an explicit state:
    - the instance attributes are the record [BaseTrainer];
    - [tf.io.gfile] is a set of directories, a map from paths to file
      contents and the history of the operations performed;
    - Python exceptions are the [Raises] outcome of a state-and-exception
      monad in which the state survives a raise, as attribute mutations do;
    - the abstract methods are the class [TrainerHooks]; the trajectory store
      of the environment is the class [BatchTrajectory]. *)

From Stdlib Require Import ZArith List String Ascii Lia DecimalString.
From Stdlib Require DecimalPos DecimalZ.
From stdpp Require Import base option list strings gmap.

Open Scope Z_scope.

(** ** Python values, exceptions and control *)

Inductive exn :=
| AssertionError
| AttributeError
| TypeError
| IndexError
| NotImplementedError
| UnpicklingError
| OtherError (msg : string).

Inductive outcome (A : Type) :=
| Returns (a : A)
| Raises (e : exn).
Arguments Returns {A} a.
Arguments Raises {A} e.

Definition outcome_bind {A B} (o : outcome A) (k : A -> outcome B) : outcome B :=
  match o with
  | Returns a => k a
  | Raises e => Raises e
  end.

(** A computation over a mutable state [S]: the state is returned whether
    the computation returns or raises. *)
Definition M (S A : Type) : Type := S -> outcome A * S.

Definition ret {S A} (a : A) : M S A := fun s => (Returns a, s).
Definition raise {S A} (e : exn) : M S A := fun s => (Raises e, s).
Definition bind {S A B} (m : M S A) (k : A -> M S B) : M S B :=
  fun s => match m s with
           | (Returns a, s') => k a s'
           | (Raises e, s') => (Raises e, s')
           end.
Definition gets {S A} (f : S -> A) : M S A := fun s => (Returns (f s), s).
Definition modify {S} (f : S -> S) : M S unit := fun s => (Returns tt, f s).
Definition lift_outcome {S A} (o : outcome A) : M S A := fun s => (o, s).

Declare Scope py_scope.
Delimit Scope py_scope with py.
Notation "x <- m ;; k" := (bind m (fun x => k))
  (at level 100, m at next level, right associativity) : py_scope.
Notation "m ;; k" := (bind m (fun _ => k))
  (at level 100, right associativity) : py_scope.

(** [for _ in range(n): body] *)
Fixpoint for_range {S} (n : nat) (body : M S unit) : M S unit :=
  match n with
  | O => ret tt
  | S n' => bind body (fun _ => for_range n' body)
  end.

(** [assert b] *)
Definition py_assert {S} (b : bool) : M S unit :=
  if b then ret tt else raise AssertionError.

(** ** [os.path.join] and [str.format] *)

Definition sep : ascii := "/"%char.

Definition startswith_sep (s : string) : bool :=
  match s with
  | String c _ => Ascii.eqb c sep
  | EmptyString => false
  end.

Fixpoint last_char (s : string) : option ascii :=
  match s with
  | EmptyString => None
  | String c EmptyString => Some c
  | String _ s' => last_char s'
  end.

Definition endswith_sep (s : string) : bool :=
  match last_char s with
  | Some c => Ascii.eqb c sep
  | None => false
  end.

Definition is_empty_string (s : string) : bool :=
  match s with EmptyString => true | _ => false end.

(** [posixpath.join(a, b)]: an absolute [b] replaces [a]; otherwise [b] is
    appended, with a separator unless [a] is empty or already ends in one. *)
Definition path_join (a b : string) : string :=
  if startswith_sep b then b
  else if is_empty_string a || endswith_sep a then a +:+ b
  else a +:+ "/" +:+ b.

(** [str(n)] for a Python int. *)
Definition str_of_int (n : Z) : string := NilZero.string_of_int (Z.to_int n).

(** ['{}.pkl'.format(n)] *)
Definition format_pkl (n : Z) : string := str_of_int n +:+ ".pkl".

(** ** Spaces, time steps, trajectories *)

(** A gym space, as far as the trainer looks at it: [shape] is a tuple of
    ints and [dtype] a numpy element type, named by its string. *)
Record Space := { shape : list Z; dtype : string }.

Record TimeStep (Action Observation : Type) :=
  { observation : Observation; action : option Action }.
Arguments observation {Action Observation} t.
Arguments action {Action Observation} t.

Record Trajectory (Action Observation : Type) :=
  { time_steps : list (TimeStep Action Observation) }.
Arguments time_steps {Action Observation} t.
Arguments Build_Trajectory {Action Observation} time_steps.
Arguments Build_TimeStep {Action Observation} observation action.

(** The values [has_any_action] can return: the operand of [and] that
    decided it, a list or a bool. *)
Inductive PyVal (A : Type) :=
| PyList (l : list A)
| PyBool (b : bool).
Arguments PyList {A} l.
Arguments PyBool {A} b.

Definition truthy {A} (v : PyVal A) : bool :=
  match v with
  | PyList nil => false
  | PyList (_ :: _) => true
  | PyBool b => b
  end.

(** [l[i]] for [i >= 0] *)
Definition getitem {A} (l : list A) (i : nat) : outcome A :=
  match l !! i with
  | Some x => Returns x
  | None => Raises IndexError
  end.

(** [x is not None] *)
Definition is_not_None {A} (x : option A) : bool :=
  match x with Some _ => true | None => false end.

(** [filter(f, l)], consumed entirely: the first raise of [f] ends it. *)
Fixpoint py_filter {A B} (f : A -> outcome (PyVal B)) (l : list A) : outcome (list A) :=
  match l with
  | nil => Returns nil
  | x :: l' =>
      outcome_bind (f x) (fun v =>
      outcome_bind (py_filter f l') (fun r =>
      Returns (if truthy v then x :: r else r)))
  end.

(** ** [tf.io.gfile]

    Paths are strings. A file holds either a pickled list of trajectories
    or raw bytes. Failures of the storage itself are outside the model; the
    one failure kept is unpickling a file that holds no pickled list. *)

Inductive FileContent (T : Type) :=
| Pickled (l : list T)
| Raw (s : string).
Arguments Pickled {T} l.
Arguments Raw {T} s.

Inductive FsOp (T : Type) :=
| OpMakedirs (d : string)
| OpRead (p : string)
| OpWrite (p : string) (c : FileContent T).
Arguments OpMakedirs {T} d.
Arguments OpRead {T} p.
Arguments OpWrite {T} p c.

Record FileSystem (T : Type) := {
  dirs : gset string;
  files : gmap string (FileContent T);
  oplog : list (FsOp T)
}.
Arguments dirs {T} f.
Arguments files {T} f.
Arguments oplog {T} f.
Arguments Build_FileSystem {T} dirs files oplog.

Definition fs_makedirs {T} (d : string) (fs : FileSystem T) : FileSystem T :=
  {| dirs := {[d]} ∪ dirs fs; files := files fs;
     oplog := oplog fs ++ [OpMakedirs d] |}.

Definition fs_exists {T} (p : string) (fs : FileSystem T) : bool :=
  match files fs !! p with Some _ => true | None => false end.

Definition fs_logread {T} (p : string) (fs : FileSystem T) : FileSystem T :=
  {| dirs := dirs fs; files := files fs; oplog := oplog fs ++ [OpRead p] |}.

Definition fs_write {T} (p : string) (c : FileContent T) (fs : FileSystem T)
  : FileSystem T :=
  {| dirs := dirs fs; files := <[p := c]> (files fs);
     oplog := oplog fs ++ [OpWrite p c] |}.

(** [pkl_module.load(f)], as [pkl_module.load(f) + self._trajectory_buffer]
    uses it: it succeeds on a file that holds a pickled list.  On any other
    content the load or the concatenation raises ([UnpicklingError],
    [EOFError] or [TypeError], depending on the content); the model does not
    tell these apart and names them all [UnpicklingError]. *)
Definition pkl_load {T} (c : FileContent T) : outcome (list T) :=
  match c with
  | Pickled l => Returns l
  | Raw _ => Raises UnpicklingError
  end.

(** The paths written by a history of operations. *)
Definition written_paths {T} (ops : list (FsOp T)) : list string :=
  omap (fun o => match o with OpWrite p _ => Some p | _ => None end) ops.

(** ** The environment and the trainer object *)

Record Env (St : Type) := {
  action_space : Space;
  observation_space : Space;
  trajectories : St
}.
Arguments action_space {St} e.
Arguments observation_space {St} e.
Arguments trajectories {St} e.
Arguments Build_Env {St} action_space observation_space trajectories.

(** The trajectory store of an environment ([env.trajectories]); its three
    operations are defined by the environment, not by the trainer. *)
Class BatchTrajectory (St T : Type) := {
  completed_trajectories : St -> list T;
  complete_all_trajectories : St -> St;
  clear_completed_trajectories : St -> St
}.

(** The instance attributes set by [BaseTrainer.__init__]. *)
Record BaseTrainer (St T : Type) := {
  _train_env : option (Env St);
  _action_space : option Space;
  _observation_space : option Space;
  _should_reset_train_env : bool;
  _eval_env : option (Env St);
  trajectory_dump_dir : option string;
  _trajectory_dump_min_count_per_shard : Z;
  _trajectory_buffer : list T;
  _async_mode : bool;
  _output_dir : option string;
  _trainer_reset_called : bool
}.
Arguments _train_env {St T} b.
Arguments _action_space {St T} b.
Arguments _observation_space {St T} b.
Arguments _should_reset_train_env {St T} b.
Arguments _eval_env {St T} b.
Arguments trajectory_dump_dir {St T} b.
Arguments _trajectory_dump_min_count_per_shard {St T} b.
Arguments _trajectory_buffer {St T} b.
Arguments _async_mode {St T} b.
Arguments _output_dir {St T} b.
Arguments _trainer_reset_called {St T} b.
Arguments Build_BaseTrainer {St T}.

(** Everything a method can touch: the object, the file system and the
    attributes [sub] that a concrete trainer class adds. *)
Record World (St T U : Type) := {
  self : BaseTrainer St T;
  gfile : FileSystem T;
  sub : U
}.
Arguments self {St T U} w.
Arguments gfile {St T U} w.
Arguments sub {St T U} w.
Arguments Build_World {St T U} self gfile sub.

(** The methods [BaseTrainer] leaves to its subclasses. [epoch] is a
    read-only property. *)
Class TrainerHooks (St T U : Type) := {
  epoch : World St T U -> outcome Z;
  train_epoch : bool -> M (World St T U) unit;
  evaluate : M (World St T U) unit;
  save : M (World St T U) unit;
  maybe_save : M (World St T U) unit;
  flush_summaries : M (World St T U) unit
}.

(** The methods as [BaseTrainer] itself defines them. *)
Definition AbstractHooks (St T U : Type) : TrainerHooks St T U := {|
  epoch := fun _ => Raises NotImplementedError;
  train_epoch := fun _ => raise NotImplementedError;
  evaluate := raise NotImplementedError;
  save := raise NotImplementedError;
  maybe_save := raise NotImplementedError;
  flush_summaries := raise NotImplementedError
|}.

(** The calls [training_loop] makes, in the order it makes them. The list is
    kept beside the world, out of reach of the hooks. *)
Inductive Call :=
| CallReset
| CallTrainEpoch (evaluate : bool)
| CallMaybeSave
| CallDumpTrajectories (force : bool)
| CallSave
| CallEvaluate
| CallFlushSummaries
| CallIndicateDone.

Section Model.
Context {Action Observation St U : Type}.
Abbreviation T := (Trajectory Action Observation).
Context `{!BatchTrajectory St T}.
Abbreviation Trainer := (BaseTrainer St T).
Abbreviation W := (World St T U).

(** *** Attribute assignment *)

Definition set_train_env_attr (v : option (Env St)) (t : Trainer) : Trainer :=
  {| _train_env := v; _action_space := _action_space t;
     _observation_space := _observation_space t;
     _should_reset_train_env := _should_reset_train_env t;
     _eval_env := _eval_env t; trajectory_dump_dir := trajectory_dump_dir t;
     _trajectory_dump_min_count_per_shard := _trajectory_dump_min_count_per_shard t;
     _trajectory_buffer := _trajectory_buffer t; _async_mode := _async_mode t;
     _output_dir := _output_dir t; _trainer_reset_called := _trainer_reset_called t |}.

Definition set_action_space (v : option Space) (t : Trainer) : Trainer :=
  {| _train_env := _train_env t; _action_space := v;
     _observation_space := _observation_space t;
     _should_reset_train_env := _should_reset_train_env t;
     _eval_env := _eval_env t; trajectory_dump_dir := trajectory_dump_dir t;
     _trajectory_dump_min_count_per_shard := _trajectory_dump_min_count_per_shard t;
     _trajectory_buffer := _trajectory_buffer t; _async_mode := _async_mode t;
     _output_dir := _output_dir t; _trainer_reset_called := _trainer_reset_called t |}.

Definition set_observation_space (v : option Space) (t : Trainer) : Trainer :=
  {| _train_env := _train_env t; _action_space := _action_space t;
     _observation_space := v;
     _should_reset_train_env := _should_reset_train_env t;
     _eval_env := _eval_env t; trajectory_dump_dir := trajectory_dump_dir t;
     _trajectory_dump_min_count_per_shard := _trajectory_dump_min_count_per_shard t;
     _trajectory_buffer := _trajectory_buffer t; _async_mode := _async_mode t;
     _output_dir := _output_dir t; _trainer_reset_called := _trainer_reset_called t |}.

Definition set_should_reset_train_env (v : bool) (t : Trainer) : Trainer :=
  {| _train_env := _train_env t; _action_space := _action_space t;
     _observation_space := _observation_space t;
     _should_reset_train_env := v;
     _eval_env := _eval_env t; trajectory_dump_dir := trajectory_dump_dir t;
     _trajectory_dump_min_count_per_shard := _trajectory_dump_min_count_per_shard t;
     _trajectory_buffer := _trajectory_buffer t; _async_mode := _async_mode t;
     _output_dir := _output_dir t; _trainer_reset_called := _trainer_reset_called t |}.

Definition set_trajectory_buffer (v : list T) (t : Trainer) : Trainer :=
  {| _train_env := _train_env t; _action_space := _action_space t;
     _observation_space := _observation_space t;
     _should_reset_train_env := _should_reset_train_env t;
     _eval_env := _eval_env t; trajectory_dump_dir := trajectory_dump_dir t;
     _trajectory_dump_min_count_per_shard := _trajectory_dump_min_count_per_shard t;
     _trajectory_buffer := v; _async_mode := _async_mode t;
     _output_dir := _output_dir t; _trainer_reset_called := _trainer_reset_called t |}.

Definition set_async_mode (v : bool) (t : Trainer) : Trainer :=
  {| _train_env := _train_env t; _action_space := _action_space t;
     _observation_space := _observation_space t;
     _should_reset_train_env := _should_reset_train_env t;
     _eval_env := _eval_env t; trajectory_dump_dir := trajectory_dump_dir t;
     _trajectory_dump_min_count_per_shard := _trajectory_dump_min_count_per_shard t;
     _trajectory_buffer := _trajectory_buffer t; _async_mode := v;
     _output_dir := _output_dir t; _trainer_reset_called := _trainer_reset_called t |}.

Definition set_output_dir (v : option string) (t : Trainer) : Trainer :=
  {| _train_env := _train_env t; _action_space := _action_space t;
     _observation_space := _observation_space t;
     _should_reset_train_env := _should_reset_train_env t;
     _eval_env := _eval_env t; trajectory_dump_dir := trajectory_dump_dir t;
     _trajectory_dump_min_count_per_shard := _trajectory_dump_min_count_per_shard t;
     _trajectory_buffer := _trajectory_buffer t; _async_mode := _async_mode t;
     _output_dir := v; _trainer_reset_called := _trainer_reset_called t |}.

Definition set_trainer_reset_called (v : bool) (t : Trainer) : Trainer :=
  {| _train_env := _train_env t; _action_space := _action_space t;
     _observation_space := _observation_space t;
     _should_reset_train_env := _should_reset_train_env t;
     _eval_env := _eval_env t; trajectory_dump_dir := trajectory_dump_dir t;
     _trajectory_dump_min_count_per_shard := _trajectory_dump_min_count_per_shard t;
     _trajectory_buffer := _trajectory_buffer t; _async_mode := _async_mode t;
     _output_dir := _output_dir t; _trainer_reset_called := v |}.

Definition on_self (f : Trainer -> Trainer) (w : W) : W :=
  {| self := f (self w); gfile := gfile w; sub := sub w |}.

Definition on_gfile (f : FileSystem T -> FileSystem T) (w : W) : W :=
  {| self := self w; gfile := f (gfile w); sub := sub w |}.

(** A method of the object alone, run inside a world. *)
Definition in_self {A} (m : M Trainer A) : M W A :=
  fun w => let (r, t) := m (self w) in (r, on_self (fun _ => t) w).

(** The store is an object the environment owns: its methods update it
    in place, behind the reference [self._train_env]. *)
Definition on_store (f : St -> St) (t : Trainer) : Trainer :=
  set_train_env_attr
    (match _train_env t with
     | Some e => Some {| action_space := action_space e;
                         observation_space := observation_space e;
                         trajectories := f (trajectories e) |}
     | None => None
     end) t.

Definition store_completed (t : Trainer) : list T :=
  match _train_env t with
  | Some e => completed_trajectories (trajectories e)
  | None => []
  end.

(** *** [_assert_env_compatible] and the [train_env] setter *)

Definition same_shape (s1 s2 : Space) : bool := bool_decide (shape s1 = shape s2).
Definition same_dtype (s1 s2 : Space) : bool := bool_decide (dtype s1 = dtype s2).

Definition assert_same_space (space1 : option Space) (space2 : option Space)
  : M Trainer unit :=
  (match space1, space2 with
   | Some s1, Some s2 =>
       py_assert (same_shape s1 s2) ;;
       py_assert (same_dtype s1 s2)
   | _, _ => raise AttributeError
   end)%py.

Definition _assert_env_compatible (new_env : option (Env St)) : M Trainer unit :=
  (match new_env with
   | None => raise AttributeError
   | Some e =>
       obs <- gets _observation_space ;;
       assert_same_space (Some (observation_space e)) obs ;;
       act <- gets _action_space ;;
       assert_same_space (Some (action_space e)) act
   end)%py.

(** The setter of the property [train_env] ([@train_env.setter]); the
    getter is the projection [_train_env]. *)
Definition set_train_env (new_train_env : option (Env St)) : M Trainer unit :=
  (cur <- gets _train_env ;;
   (match cur with
    | None =>
        match new_train_env with
        | None => raise AttributeError
        | Some e =>
            modify (set_action_space (Some (action_space e))) ;;
            modify (set_observation_space (Some (observation_space e)))
        end
    | Some _ => _assert_env_compatible new_train_env
    end) ;;
   modify (set_train_env_attr new_train_env) ;;
   modify (set_should_reset_train_env true))%py.

(** [__init__]: the three attributes behind the setter start as [None],
    the setter runs, the remaining attributes are plain assignments the
    setter does not read. *)
Definition __init__ (train_env eval_env : option (Env St))
    (output_dir trajectory_dump_dir : option string)
    (trajectory_dump_min_count_per_shard : Z) (async_mode : bool)
  : outcome Trainer :=
  let t0 := {| _train_env := None; _action_space := None;
               _observation_space := None; _should_reset_train_env := false;
               _eval_env := eval_env;
               trajectory_dump_dir := trajectory_dump_dir;
               _trajectory_dump_min_count_per_shard :=
                 trajectory_dump_min_count_per_shard;
               _trajectory_buffer := [];
               _async_mode := async_mode;
               _output_dir := output_dir;
               _trainer_reset_called := false |} in
  match set_train_env train_env t0 with
  | (Returns _, t) => Returns (set_should_reset_train_env true t)
  | (Raises e, _) => Raises e
  end.

(** *** [reset] *)

Definition reset (output_dir : option string) : M W unit :=
  (modify (on_self (set_trainer_reset_called true)) ;;
   (match output_dir with
    | Some d => modify (on_self (set_output_dir (Some d)))
    | None => ret tt
    end) ;;
   od <- gets (fun w => _output_dir (self w)) ;;
   match od with
   | None => raise AssertionError
   | Some d => modify (on_gfile (fs_makedirs d))
   end)%py.

(** *** [dump_trajectories] *)

Definition has_any_action (trajectory : T)
  : outcome (PyVal (TimeStep Action Observation)) :=
  match time_steps trajectory with
  | [] => Returns (PyList (time_steps trajectory))
  | _ :: _ =>
      outcome_bind (getitem (time_steps trajectory) 0) (fun step =>
      Returns (PyBool (is_not_None (action step))))
  end.

Context `{!TrainerHooks St T U}.

(** [self.epoch] *)
Definition read_epoch : M W Z := fun w => (epoch w, w).

Definition dump_trajectories (force : bool) : M W unit :=
  (dump_dir <- gets (fun w => trajectory_dump_dir (self w)) ;;
   match dump_dir with
   | None => ret tt
   | Some d =>
       modify (on_gfile (fs_makedirs d)) ;;
       env <- gets (fun w => _train_env (self w)) ;;
       match env with
       | None => raise AttributeError
       | Some _ =>
           (if force then modify (on_self (on_store complete_all_trajectories))
            else ret tt) ;;
           completed <- gets (fun w => store_completed (self w)) ;;
           kept <- lift_outcome (py_filter has_any_action completed) ;;
           modify (on_self (fun t =>
             set_trajectory_buffer (_trajectory_buffer t ++ kept) t)) ;;
           modify (on_self (on_store clear_completed_trajectories)) ;;
           ready <- gets (fun w =>
             _trajectory_dump_min_count_per_shard (self w)
             <=? Z.of_nat (length (_trajectory_buffer (self w)))) ;;
           if ready || force then
             e <- read_epoch ;;
             let shard_path := path_join d (format_pkl e) in
             ex <- gets (fun w => fs_exists shard_path (gfile w)) ;;
             (if ex then
                modify (on_gfile (fs_logread shard_path)) ;;
                c <- gets (fun w => files (gfile w) !! shard_path) ;;
                old <- lift_outcome
                  (match c with
                   | Some c => pkl_load c
                   | None => Returns []
                   end) ;;
                modify (on_self (fun t =>
                  set_trajectory_buffer (old ++ _trajectory_buffer t) t))
              else ret tt) ;;
             buffer <- gets (fun w => _trajectory_buffer (self w)) ;;
             modify (on_gfile (fs_write shard_path (Pickled buffer))) ;;
             modify (on_self (set_trajectory_buffer []))
           else ret tt
       end
   end)%py.

(** *** [indicate_done] *)

Definition done_marker : string := "__done__".

Definition indicate_done : M W unit :=
  (async <- gets (fun w => _async_mode (self w)) ;;
   if negb async then ret tt
   else
     od <- gets (fun w => _output_dir (self w)) ;;
     match od with
     | None => raise TypeError
     | Some d =>
         modify (on_gfile (fs_write (path_join d done_marker) (Raw "")))
     end)%py.

(** *** [training_loop] *)

Abbreviation R := (W * list Call)%type.

(** A call made by the loop: it is recorded, then run on the world. *)
Definition call {A} (c : Call) (m : M W A) : M R A :=
  fun r => let (res, w) := m (fst r) in (res, (w, snd r ++ [c])).

Definition the_world {A} (m : M W A) : M R A :=
  fun r => let (res, w) := m (fst r) in (res, (w, snd r)).

Definition loop_body (eval_flag : bool) : M R unit :=
  (call (CallTrainEpoch eval_flag) (train_epoch eval_flag) ;;
   call CallMaybeSave maybe_save ;;
   call (CallDumpTrajectories false) (dump_trajectories false))%py.

Definition after_loop (eval_flag : bool) : M R unit :=
  (call CallSave save ;;
   call (CallDumpTrajectories true) (dump_trajectories true) ;;
   (if eval_flag then call CallEvaluate evaluate else ret tt) ;;
   call CallFlushSummaries flush_summaries ;;
   call CallIndicateDone indicate_done)%py.

Definition training_loop (n_epochs : Z) (eval_flag : bool) : M R unit :=
  (called <- the_world (gets (fun w => _trainer_reset_called (self w))) ;;
   (if negb called then
      od <- the_world (gets (fun w => _output_dir (self w))) ;;
      call CallReset (reset od)
    else ret tt) ;;
   first <- the_world read_epoch ;;
   for_range (Z.to_nat (n_epochs - first)) (loop_body eval_flag) ;;
   after_loop eval_flag)%py.

(** *** Derived notions used by the statements *)

(** What [filter(has_any_action, ...)] keeps. *)
Definition keeps (trajectory : T) : bool :=
  match has_any_action trajectory with
  | Returns v => truthy v
  | Raises _ => false
  end.

(** A degenerate trajectory: it has a first step, and that step has no
    action. *)
Definition degenerate (trajectory : T) : Prop :=
  exists step rest,
    time_steps trajectory = step :: rest /\ action step = None.

Definition shard_path (d : string) (e : Z) : string :=
  path_join d (format_pkl e).

Definition marker_path (d : string) : string := path_join d done_marker.

(** The store of [env] once [dump_trajectories force] has (or has not)
    completed the open trajectories, and what the call then harvests. *)
Definition store_at_harvest (force : bool) (env : Env St) : St :=
  if force then complete_all_trajectories (trajectories env)
  else trajectories env.

Definition harvested (force : bool) (env : Env St) : list T :=
  List.filter keeps (completed_trajectories (store_at_harvest force env)).

(** The trajectories a file system holds at [p]. *)
Definition shard_at (fs : FileSystem T) (p : string) : option (list T) :=
  match files fs !! p with
  | Some (Pickled l) => Some l
  | _ => None
  end.

(** [t] is stored in some shard. *)
Definition in_some_shard (fs : FileSystem T) (t : T) : Prop :=
  exists p l, files fs !! p = Some (Pickled l) /\ In t l.

(** [dump_trajectories] returned and left [w']. *)
Definition dumps (force : bool) (w w' : W) : Prop :=
  dump_trajectories force w = (Returns tt, w').

(** The attributes the dumping reads, and the files, are left alone by
    whatever happens between two dumps: the environment runs, the store
    and the epoch move. *)
Record between_dumps (w w' : W) : Prop := {
  bd_gfile : gfile w' = gfile w;
  bd_buffer : _trajectory_buffer (self w') = _trajectory_buffer (self w);
  bd_min : _trajectory_dump_min_count_per_shard (self w')
           = _trajectory_dump_min_count_per_shard (self w);
  bd_dir : trajectory_dump_dir (self w') = trajectory_dump_dir (self w)
}.

(** A sequence of [dump_trajectories(force=False)] calls that all return,
    with the environment running in between; [hs] collects, call by call,
    the completed set the store held when the call was made. *)
Inductive periodic_dumps : W -> list (list T) -> W -> Prop :=
| pd_nil w : periodic_dumps w [] w
| pd_step w hs w1 w2 w3 env :
    periodic_dumps w hs w1 ->
    between_dumps w1 w2 ->
    _train_env (self w2) = Some env ->
    dumps false w2 w3 ->
    periodic_dumps w (hs ++ [completed_trajectories (trajectories env)]) w3.

(** A sequence of dumps, forced or not, returning or raising, with the
    environment running in between. *)
Inductive dump_run : W -> W -> Prop :=
| dr_nil w : dump_run w w
| dr_step w w1 w2 force :
    dump_run w w1 ->
    between_dumps w1 w2 ->
    dump_run w (snd (dump_trajectories force w2)).

(** Every trajectory in the buffer, in a stored shard or in a shard that
    was ever written satisfies [P]. *)
Record all_trajectories (P : T -> Prop) (w : W) : Prop := {
  at_buffer : Forall P (_trajectory_buffer (self w));
  at_files : forall p l, files (gfile w) !! p = Some (Pickled l) -> Forall P l;
  at_written : forall p l, In (OpWrite p (Pickled l)) (oplog (gfile w)) -> Forall P l
}.

(** The loop as the specification words it: while the epoch counter is
    below [n_epochs], run the body. [fuel] bounds the iterations; [None]
    when it runs out. *)
Fixpoint while_epoch_below (fuel : nat) (n_epochs : Z) (body : M R unit)
  : M R (option unit) :=
  match fuel with
  | O => ret None
  | S fuel' =>
      (e <- the_world read_epoch ;;
       if e <? n_epochs then
         body ;; while_epoch_below fuel' n_epochs body
       else ret (Some tt))%py
  end.

Definition training_loop_as_specified (fuel : nat) (n_epochs : Z)
    (eval_flag : bool) : M R (option unit) :=
  (called <- the_world (gets (fun w => _trainer_reset_called (self w))) ;;
   (if negb called then
      od <- the_world (gets (fun w => _output_dir (self w))) ;;
      call CallReset (reset od)
    else ret tt) ;;
   fin <- while_epoch_below fuel n_epochs (loop_body eval_flag) ;;
   match fin with
   | None => ret None
   | Some _ => after_loop eval_flag ;; ret (Some tt)
   end)%py.


(** The world once [dump_trajectories force] has created the directory,
    harvested the store into the buffer and cleared the completed set, that
    is, just before it decides whether to write. *)
Definition after_harvest (force : bool) (d : string) (w : W) : W :=
  let w1 := on_gfile (fs_makedirs d) w in
  let w2 := if force then on_self (on_store complete_all_trajectories) w1 else w1 in
  let w3 := on_self (fun t =>
              set_trajectory_buffer
                (_trajectory_buffer t ++ List.filter keeps (store_completed t)) t) w2 in
  on_self (on_store clear_completed_trajectories) w3.

(** Whether the call goes on to write a shard. *)
Definition writes_shard (force : bool) (d : string) (w : W) : bool :=
  (_trajectory_dump_min_count_per_shard (self w)
   <=? Z.of_nat (length (_trajectory_buffer (self (after_harvest force d w)))))
  || force.


(** *** Notions about the loop *)

Definition is_returns {A} (o : outcome A) : Prop :=
  match o with Returns _ => True | Raises _ => False end.

(** The hooks keep a property of the world, whether they return or raise. *)
Record hooks_preserve (I : W -> Prop) : Prop := {
  hp_train_epoch : forall b w, I w -> I (snd (train_epoch b w));
  hp_evaluate : forall w, I w -> I (snd (evaluate w));
  hp_save : forall w, I w -> I (snd (save w));
  hp_maybe_save : forall w, I w -> I (snd (maybe_save w));
  hp_flush_summaries : forall w, I w -> I (snd (flush_summaries w))
}.

(** From a world with the property, every hook returns. *)
Record hooks_return (I : W -> Prop) : Prop := {
  hr_epoch : forall w, I w -> is_returns (epoch w);
  hr_train_epoch : forall b w, I w -> is_returns (fst (train_epoch b w));
  hr_evaluate : forall w, I w -> is_returns (fst (evaluate w));
  hr_save : forall w, I w -> is_returns (fst (save w));
  hr_maybe_save : forall w, I w -> is_returns (fst (maybe_save w));
  hr_flush_summaries : forall w, I w -> is_returns (fst (flush_summaries w))
}.

(** A computation of the loop keeps a property of the world. *)
Definition keeps_world {A} (I : W -> Prop) (m : M R A) : Prop :=
  forall r, I (fst r) -> I (fst (snd (m r))).

(** A computation of the loop returns from every world with the property,
    and keeps the property. *)
Definition returns_from {A} (I : W -> Prop) (m : M R A) : Prop :=
  forall r, I (fst r) -> is_returns (fst (m r)) /\ I (fst (snd (m r))).

(** A computation of the loop makes the calls [l], in that order: all of
    them when it returns, the first few when a call raises. *)
Definition makes_calls {A} (m : M R A) (l : list Call) : Prop :=
  forall r, exists l',
    snd (snd (m r)) = snd r ++ l'
    /\ l' `prefix_of` l
    /\ (is_returns (fst (m r)) -> l' = l).

Definition body_calls (eval_flag : bool) : list Call :=
  [CallTrainEpoch eval_flag; CallMaybeSave; CallDumpTrajectories false].

Definition final_calls (eval_flag : bool) : list Call :=
  [CallSave; CallDumpTrajectories true]
  ++ (if eval_flag then [CallEvaluate] else [])
  ++ [CallFlushSummaries; CallIndicateDone].

(** The calls of a whole loop that resets first (or not) and then runs
    [iterations] bodies. *)
Definition expected_calls (resets : bool) (iterations : nat) (eval_flag : bool)
  : list Call :=
  (if resets then [CallReset] else [])
  ++ concat (replicate iterations (body_calls eval_flag))
  ++ final_calls eval_flag.

(** The world in which the loop reads the epoch: after the reset, if the
    loop has to perform it. *)
Definition world_at_loop_entry (w : W) : W :=
  if _trainer_reset_called (self w) then w
  else snd (reset (_output_dir (self w)) w).

(** The run is not asynchronous and no file stands at the marker path of
    the directory [d]. *)
Definition no_marker (d : string) (w : W) : Prop :=
  _async_mode (self w) = false /\ files (gfile w) !! marker_path d = None.

(** In the worlds with the property [I], one body returns, advances the
    epoch counter by exactly one and keeps [I]. *)
Definition body_advances_by_one_from (I : W -> Prop) (eval_flag : bool) : Prop :=
  forall (r : R) e,
    I (fst r) ->
    epoch (fst r) = Returns e ->
    is_returns (fst (loop_body eval_flag r))
    /\ I (fst (snd (loop_body eval_flag r)))
    /\ epoch (fst (snd (loop_body eval_flag r))) = Returns (e + 1).

(** The outcome of [training_loop], as [training_loop_as_specified] gives
    it when its fuel suffices. *)
Definition as_loop_outcome (o : outcome unit) : outcome (option unit) :=
  match o with
  | Returns _ => Returns (Some tt)
  | Raises x => Raises x
  end.


(** *** The remaining properties of the class *)

(** [async_mode], getter and setter; the setter also logs the change. *)
Definition async_mode (t : Trainer) : bool := _async_mode t.

Definition async_mode_setter (async_mode : bool) : M Trainer unit :=
  modify (set_async_mode async_mode).

(** [eval_env] and [train_env], the getters. *)
Definition eval_env (t : Trainer) : option (Env St) := _eval_env t.
Definition train_env (t : Trainer) : option (Env St) := _train_env t.

(** Two spaces the trainer cannot tell apart. *)
Definition same_space (s1 s2 : Space) : Prop :=
  shape s1 = shape s2 /\ dtype s1 = dtype s2.

(** The environment bound to the trainer fits the reference spaces. *)
Definition bound_consistent (t : Trainer) : Prop :=
  exists env a o,
    _train_env t = Some env
    /\ _action_space t = Some a
    /\ _observation_space t = Some o
    /\ same_space (action_space env) a
    /\ same_space (observation_space env) o.

(** Any number of assignments to [train_env], accepted or refused. *)
Inductive rebinds : Trainer -> Trainer -> Prop :=
| rebinds_nil t : rebinds t t
| rebinds_step t t1 new :
    rebinds t t1 -> rebinds t (snd (set_train_env new t1)).


(** A computation of the loop that starts in a world with [I] and returns
    ends in a world with [Q]. *)
Definition ends_with {A} (I Q : W -> Prop) (m : M R A) : Prop :=
  forall r, I (fst r) -> is_returns (fst (m r)) -> Q (fst (snd (m r))).

(** The run is asynchronous and its output directory is [d]. *)
Definition async_in (d : string) (w : W) : Prop :=
  _async_mode (self w) = true /\ _output_dir (self w) = Some d.

(** The trainer is marked as reset. *)
Definition reset_done (w : W) : Prop := _trainer_reset_called (self w) = true.

End Model.

(** ** Concrete collaborators

    A store that keeps its open and its completed episodes in two lists, and
    a trainer whose only additional attribute is its epoch counter. They are the
    inputs on which the theorems below are exercised. *)

Abbreviation ZTimeStep := (TimeStep Z Z).
Abbreviation ZTrajectory := (Trajectory Z Z).

Record ListStore := { pending : list ZTrajectory; completed : list ZTrajectory }.

Definition ListStore_ops : BatchTrajectory ListStore ZTrajectory := {|
  completed_trajectories := completed;
  complete_all_trajectories := fun s =>
    {| pending := []; completed := completed s ++ pending s |};
  clear_completed_trajectories := fun s =>
    {| pending := pending s; completed := [] |}
|}.

Abbreviation ZWorld := (World ListStore ZTrajectory Z).

(** [train_epoch] advances the counter by [step]; the other hooks do
    nothing. *)
Definition CountingHooks (step : Z) : TrainerHooks ListStore ZTrajectory Z := {|
  epoch := fun w => Returns (sub w);
  train_epoch := fun _ =>
    modify (fun w => {| self := self w; gfile := gfile w; sub := sub w + step |});
  evaluate := ret tt;
  save := ret tt;
  maybe_save := ret tt;
  flush_summaries := ret tt
|}.

Definition float32_4 : Space := {| shape := [4]; dtype := "float32" |}.
Definition float32_6 : Space := {| shape := [6]; dtype := "float32" |}.
Definition int64_4 : Space := {| shape := [4]; dtype := "int64" |}.

(** An episode of two steps, the first one with action [a]. *)
Definition episode (a : Z) : ZTrajectory :=
  {| time_steps := [ {| observation := 0; action := Some a |};
                     {| observation := 1; action := None |} ] |}.

(** An episode that was reset and harvested before any action. *)
Definition just_reset : ZTrajectory :=
  {| time_steps := [ {| observation := 0; action := None |} ] |}.

Definition no_steps : ZTrajectory := {| time_steps := [] |}.

Definition sample_env (open_ done_ : list ZTrajectory) : Env ListStore :=
  {| action_space := float32_4; observation_space := float32_4;
     trajectories := {| pending := open_; completed := done_ |} |}.

Definition empty_fs : FileSystem ZTrajectory :=
  {| dirs := ∅; files := ∅; oplog := [] |}.

Definition sample_trainer (env : Env ListStore) (dump_dir output_dir : option string)
    (min_count : Z) (async : bool) (buffer : list ZTrajectory)
  : BaseTrainer ListStore ZTrajectory :=
  {| _train_env := Some env; _action_space := Some (action_space env);
     _observation_space := Some (observation_space env);
     _should_reset_train_env := true; _eval_env := None;
     trajectory_dump_dir := dump_dir;
     _trajectory_dump_min_count_per_shard := min_count;
     _trajectory_buffer := buffer; _async_mode := async;
     _output_dir := output_dir; _trainer_reset_called := false |}.

Definition sample_world (t : BaseTrainer ListStore ZTrajectory)
    (fs : FileSystem ZTrajectory) (e : Z) : ZWorld :=
  {| self := t; gfile := fs; sub := e |}.

(** Worlds on which the theorems are exercised. *)

Definition busy_env : Env ListStore :=
  sample_env [episode 3] [episode 1; just_reset; no_steps].

(** No dump directory, not asynchronous, epoch 0. *)
Definition idle_world : ZWorld :=
  sample_world (sample_trainer busy_env None (Some "out") 16 false [])
    empty_fs 0.

(** A dump directory, one trajectory buffered, nothing on disk. *)
Definition dumping_world : ZWorld :=
  sample_world
    (sample_trainer busy_env (Some "dump") (Some "out") 16 false [episode 7])
    empty_fs 0.

Definition fs_with_shard : FileSystem ZTrajectory :=
  {| dirs := {["dump"]};
     files := {["dump/0.pkl" := Pickled [episode 5]]};
     oplog := [] |}.

(** The same, with a shard of epoch 0 already on disk. *)
Definition merging_world : ZWorld :=
  sample_world
    (sample_trainer busy_env (Some "dump") (Some "out") 16 false [episode 7])
    fs_with_shard 0.

(** Asynchronous, with an output directory. *)
Definition async_world : ZWorld :=
  sample_world (sample_trainer busy_env None (Some "out") 16 true [])
    empty_fs 0.

(** No output directory anywhere. *)
Definition unconfigured_world : ZWorld :=
  sample_world (sample_trainer busy_env None None 16 false []) empty_fs 0.

(** An environment with another action space. *)
Definition wider_env : Env ListStore :=
  {| action_space := float32_6; observation_space := float32_4;
     trajectories := {| pending := []; completed := [] |} |}.

(** A trainer whose [train_epoch] raises. *)
Definition RaisingHooks : TrainerHooks ListStore ZTrajectory Z := {|
  epoch := fun w => Returns (sub w);
  train_epoch := fun _ => raise (OtherError "training failed");
  evaluate := ret tt;
  save := ret tt;
  maybe_save := ret tt;
  flush_summaries := ret tt
|}.

(** A dump directory whose shard of epoch 0 is not a pickle. *)
Definition fs_with_junk : FileSystem ZTrajectory :=
  {| dirs := {["dump"]};
     files := {["dump/0.pkl" := Raw "junk"]};
     oplog := [] |}.

Definition junk_world : ZWorld :=
  sample_world
    (sample_trainer busy_env (Some "dump") (Some "out") 16 false [episode 7])
    fs_with_junk 0.

(** A minimum count of two, one trajectory buffered, one about to be
    harvested. *)
Definition ready_world : ZWorld :=
  sample_world
    (sample_trainer busy_env (Some "dump") (Some "out") 2 false [episode 7])
    empty_fs 0.

(** * Properties *)

(** ** Paths *)

Lemma last_char_app (a b : string) :
  b <> EmptyString -> last_char (a +:+ b) = last_char b.
Proof.
  intros Hb. induction a as [|c a IH]; simpl; [reflexivity|].
  rewrite IH. destruct (a +:+ b) eqn:E; [|reflexivity].
  destruct a; simpl in E; [contradiction | discriminate].
Qed.

Lemma last_char_path_join (a b : string) :
  b <> EmptyString -> last_char (path_join a b) = last_char b.
Proof.
  intros Hb. unfold path_join.
  destruct (startswith_sep b); [reflexivity|].
  destruct (is_empty_string a || endswith_sep a).
  - now apply last_char_app.
  - rewrite last_char_app; [now apply last_char_app|].
    destruct b; [contradiction | discriminate].
Qed.

Lemma last_char_format_pkl (e : Z) : last_char (format_pkl e) = Some "l"%char.
Proof. unfold format_pkl. now rewrite last_char_app. Qed.

(** A shard is never the completion marker: the first ends in [l], the
    second in [_]. *)
Lemma shard_path_not_marker (d d' : string) (e : Z) :
  path_join d (format_pkl e) <> path_join d' "__done__".
Proof.
  intros Heq. apply (f_equal last_char) in Heq.
  rewrite !last_char_path_join in Heq.
  - rewrite last_char_format_pkl in Heq. discriminate.
  - discriminate.
  - intros He. apply (f_equal last_char) in He.
    rewrite last_char_format_pkl in He. discriminate.
Qed.

Section Proofs.
Context {Action Observation St U : Type}.
Abbreviation T := (Trajectory Action Observation).
Context `{!BatchTrajectory St T} `{!TrainerHooks St T U}.
Abbreviation Trainer := (BaseTrainer St T).
Abbreviation W := (World St T U).

(** ** The filter *)

Lemma has_any_action_returns (t : T) :
  has_any_action t
  = Returns (match time_steps t with
             | [] => PyList []
             | step :: _ => PyBool (is_not_None (action step))
             end).
Proof. unfold has_any_action. destruct (time_steps t); reflexivity. Qed.

Lemma keeps_first_step (t : T) :
  keeps t = match time_steps t with
            | [] => false
            | step :: _ => is_not_None (action step)
            end.
Proof.
  unfold keeps. rewrite has_any_action_returns.
  destruct (time_steps t); reflexivity.
Qed.

Lemma keeps_not_degenerate (t : T) : keeps t = true -> ~ degenerate t.
Proof.
  rewrite keeps_first_step. intros Hk (step & rest & Hts & Hact).
  rewrite Hts, Hact in Hk. discriminate.
Qed.

Lemma keeps_nonempty (t : T) : keeps t = true -> time_steps t <> [].
Proof. rewrite keeps_first_step. intros Hk Hts. rewrite Hts in Hk. discriminate. Qed.

Lemma py_filter_has_any_action (l : list T) :
  py_filter has_any_action l = Returns (List.filter keeps l).
Proof.
  induction l as [|t l IH]; simpl; [reflexivity|].
  unfold keeps. rewrite has_any_action_returns, IH. reflexivity.
Qed.

Lemma harvested_keeps force env (t : T) : In t (harvested force env) -> keeps t = true.
Proof. unfold harvested. intros Hin. now apply List.filter_In in Hin. Qed.


(** ** What one call of [dump_trajectories] does *)

Lemma after_harvest_buffer force d (w : W) env :
  _train_env (self w) = Some env ->
  _trajectory_buffer (self (after_harvest force d w))
  = _trajectory_buffer (self w) ++ harvested force env.
Proof.
  intros Henv. unfold after_harvest, harvested, store_at_harvest, store_completed.
  destruct force; simpl; rewrite Henv; reflexivity.
Qed.

Lemma after_harvest_frame force d (w : W) :
  gfile (after_harvest force d w) = fs_makedirs d (gfile w)
  /\ sub (after_harvest force d w) = sub w
  /\ trajectory_dump_dir (self (after_harvest force d w)) = trajectory_dump_dir (self w)
  /\ _trajectory_dump_min_count_per_shard (self (after_harvest force d w))
     = _trajectory_dump_min_count_per_shard (self w)
  /\ _async_mode (self (after_harvest force d w)) = _async_mode (self w)
  /\ _output_dir (self (after_harvest force d w)) = _output_dir (self w)
  /\ _trainer_reset_called (self (after_harvest force d w))
     = _trainer_reset_called (self w).
Proof. unfold after_harvest. destruct force; simpl; repeat split; reflexivity. Qed.

Lemma dump_trajectories_no_dir force (w : W) :
  trajectory_dump_dir (self w) = None ->
  dump_trajectories force w = (Returns tt, w).
Proof.
  intros Hd. unfold dump_trajectories, bind, gets, ret. rewrite Hd. reflexivity.
Qed.

Lemma dump_trajectories_no_env force (w : W) d :
  trajectory_dump_dir (self w) = Some d ->
  _train_env (self w) = None ->
  dump_trajectories force w = (Raises AttributeError, on_gfile (fs_makedirs d) w).
Proof.
  intros Hd He. unfold dump_trajectories, bind, gets, ret, modify, raise.
  rewrite Hd. simpl. rewrite He. reflexivity.
Qed.

Lemma dump_trajectories_eq force (w : W) d env :
  trajectory_dump_dir (self w) = Some d ->
  _train_env (self w) = Some env ->
  dump_trajectories force w
  = let w1 := after_harvest force d w in
    if writes_shard force d w then
      match epoch w1 with
      | Raises x => (Raises x, w1)
      | Returns e =>
          let p := shard_path d e in
          match files (gfile w) !! p with
          | None =>
              (Returns tt,
               on_self (set_trajectory_buffer [])
                 (on_gfile (fs_write p (Pickled (_trajectory_buffer (self w1)))) w1))
          | Some c =>
              match pkl_load c with
              | Raises x => (Raises x, on_gfile (fs_logread p) w1)
              | Returns old =>
                  (Returns tt,
                   on_self (set_trajectory_buffer [])
                     (on_gfile (fs_write p (Pickled (old ++ _trajectory_buffer (self w1))))
                        (on_gfile (fs_logread p) w1)))
              end
          end
      end
    else (Returns tt, w1).
Proof.
  intros Hd He.
  destruct w as [t fs u]. destruct t. cbn in Hd, He. subst.
  unfold dump_trajectories, writes_shard, after_harvest, shard_path.
  unfold bind, gets, ret, modify, raise, lift_outcome, read_epoch.
  cbn [self gfile sub on_gfile on_self trajectory_dump_dir _train_env].
  destruct force; cbn [self gfile sub on_gfile on_self];
    rewrite py_filter_has_any_action;
    unfold fs_exists, store_completed, on_self, on_gfile, on_store,
      set_trajectory_buffer, set_train_env_attr;
    cbn -[Z.leb Z.of_nat path_join format_pkl List.filter];
    rewrite ?Bool.orb_true_r, ?Bool.orb_false_r.
  - match goal with |- context [epoch ?x] => destruct (epoch x) as [e|x'] end;
      [|reflexivity].
    cbn -[Z.leb Z.of_nat path_join format_pkl List.filter].
    destruct (files fs !! path_join d (format_pkl e)) as [c|] eqn:Ef;
      [|reflexivity].
    cbn -[Z.leb Z.of_nat path_join format_pkl List.filter]. rewrite Ef.
    destruct c; reflexivity.
  - match goal with |- context [Z.leb ?a ?b] => destruct (Z.leb a b) end;
      [|reflexivity].
    match goal with |- context [epoch ?x] => destruct (epoch x) as [e|x'] end;
      [|reflexivity].
    cbn -[Z.leb Z.of_nat path_join format_pkl List.filter].
    destruct (files fs !! path_join d (format_pkl e)) as [c|] eqn:Ef;
      [|reflexivity].
    cbn -[Z.leb Z.of_nat path_join format_pkl List.filter]. rewrite Ef.
    destruct c; reflexivity.
Qed.


(** ** Invariants of dumping *)

Lemma dump_trajectories_all (P : T -> Prop) force (w : W) :
  (forall t, keeps t = true -> P t) ->
  all_trajectories P w ->
  all_trajectories P (snd (dump_trajectories force w)).
Proof.
  intros HP [Hb Hf Hw].
  destruct (trajectory_dump_dir (self w)) as [d|] eqn:Hd.
  2:{ rewrite dump_trajectories_no_dir by assumption. now split. }
  destruct (_train_env (self w)) as [env|] eqn:He.
  2:{ rewrite (dump_trajectories_no_env _ _ d) by assumption. split; cbn -[after_harvest].
      - assumption.
      - assumption.
      - intros p l Hin. apply in_app_or in Hin as [Hin|[Hin|[]]];
          [eauto | discriminate]. }
  assert (Hb1 : Forall P (_trajectory_buffer (self (after_harvest force d w)))).
  { rewrite (after_harvest_buffer _ _ _ env) by assumption.
    apply Forall_app. split; [assumption|].
    apply List.Forall_forall. intros t Hin. apply HP.
    now apply harvested_keeps in Hin. }
  destruct (after_harvest_frame force d w) as (Hg & _).
  assert (Hw1 : forall p l,
             In (OpWrite p (Pickled l)) (oplog (gfile (after_harvest force d w))) ->
             Forall P l).
  { intros p l. rewrite Hg. cbn -[after_harvest]. intros Hin.
    apply in_app_or in Hin as [Hin|[Hin|[]]]; [eauto | discriminate]. }
  assert (Hf1 : files (gfile (after_harvest force d w)) = files (gfile w)).
  { now rewrite Hg. }
  rewrite (dump_trajectories_eq _ _ d env) by assumption. cbv zeta.
  destruct (writes_shard force d w).
  2:{ split; cbn -[after_harvest]; [assumption | rewrite Hf1; assumption | assumption]. }
  destruct (epoch (after_harvest force d w)) as [e|x].
  2:{ split; cbn -[after_harvest]; [assumption | rewrite Hf1; assumption | assumption]. }
  destruct (files (gfile w) !! shard_path d e) as [c|] eqn:Ec.
  - destruct c as [old|raw]; cbn [pkl_load].
    + assert (Hnew : Forall P (old ++ _trajectory_buffer (self (after_harvest force d w)))).
      { apply Forall_app. split; [eauto | assumption]. }
      split; cbn -[after_harvest].
      * constructor.
      * intros p l. rewrite Hf1. rewrite lookup_insert.
        case_decide; [intros [= <-]; assumption | eauto].
      * intros p l Hin. apply in_app_or in Hin as [Hin|[Hin|[]]].
        -- apply in_app_or in Hin as [Hin|[Hin|[]]]; [eauto | discriminate].
        -- injection Hin as _ <-. assumption.
    + split; cbn -[after_harvest].
      * assumption.
      * rewrite Hf1. assumption.
      * intros p l Hin. apply in_app_or in Hin as [Hin|[Hin|[]]];
          [eauto | discriminate].
  - split; cbn -[after_harvest].
    + constructor.
    + intros p l. rewrite Hf1. rewrite lookup_insert.
      case_decide; [intros [= <-]; assumption | eauto].
    + intros p l Hin. apply in_app_or in Hin as [Hin|[Hin|[]]].
      * eauto.
      * injection Hin as _ <-. assumption.
Qed.

Lemma between_dumps_all (P : T -> Prop) (w w' : W) :
  between_dumps w w' -> all_trajectories P w -> all_trajectories P w'.
Proof.
  intros [Hg Hb _ _] [H1 H2 H3]. split.
  - now rewrite Hb.
  - now rewrite Hg.
  - now rewrite Hg.
Qed.

Lemma dump_run_all (P : T -> Prop) (w w' : W) :
  (forall t, keeps t = true -> P t) ->
  dump_run w w' -> all_trajectories P w -> all_trajectories P w'.
Proof.
  intros HP Hrun. induction Hrun as [w|w w1 w2 force Hrun IH Hbd]; intros Hall.
  - assumption.
  - apply dump_trajectories_all; [assumption|].
    eapply between_dumps_all; eauto.
Qed.


(** What no call of [dump_trajectories] touches. *)
Lemma dump_trajectories_frame force (w : W) :
  let w' := snd (dump_trajectories force w) in
  sub w' = sub w
  /\ trajectory_dump_dir (self w') = trajectory_dump_dir (self w)
  /\ _trajectory_dump_min_count_per_shard (self w')
     = _trajectory_dump_min_count_per_shard (self w)
  /\ _async_mode (self w') = _async_mode (self w)
  /\ _output_dir (self w') = _output_dir (self w)
  /\ _trainer_reset_called (self w') = _trainer_reset_called (self w).
Proof.
  cbv zeta.
  destruct (trajectory_dump_dir (self w)) as [d|] eqn:Hd.
  2:{ rewrite dump_trajectories_no_dir by assumption. cbn. now rewrite Hd. }
  destruct (_train_env (self w)) as [env|] eqn:He.
  2:{ rewrite (dump_trajectories_no_env _ _ d) by assumption. cbn. now rewrite Hd. }
  rewrite (dump_trajectories_eq _ _ d env) by assumption. cbv zeta.
  destruct (after_harvest_frame force d w) as (_ & H1 & H2 & H3 & H4 & H5 & H6).
  rewrite <- Hd.
  destruct (writes_shard force d w); [|cbn -[after_harvest]; tauto].
  destruct (epoch (after_harvest force d w)) as [e|x]; [|cbn -[after_harvest]; tauto].
  destruct (files (gfile w) !! shard_path d e) as [[old|raw]|];
    cbn -[after_harvest]; tauto.
Qed.

(** Where a call of [dump_trajectories] can leave a file it did not find. *)
Lemma dump_trajectories_files force (w : W) p :
  files (gfile (snd (dump_trajectories force w))) !! p = files (gfile w) !! p
  \/ exists d e, trajectory_dump_dir (self w) = Some d /\ p = shard_path d e.
Proof.
  destruct (trajectory_dump_dir (self w)) as [d|] eqn:Hd.
  2:{ rewrite dump_trajectories_no_dir by assumption. now left. }
  destruct (_train_env (self w)) as [env|] eqn:He.
  2:{ rewrite (dump_trajectories_no_env _ _ d) by assumption. now left. }
  rewrite (dump_trajectories_eq _ _ d env) by assumption. cbv zeta.
  destruct (after_harvest_frame force d w) as (Hg & _).
  destruct (writes_shard force d w);
    [|left; cbn -[after_harvest]; now rewrite Hg].
  destruct (epoch (after_harvest force d w)) as [e|x];
    [|left; cbn -[after_harvest]; now rewrite Hg].
  destruct (decide (p = shard_path d e)) as [->|Hne]; [right; eauto|left].
  destruct (files (gfile w) !! shard_path d e) as [[old|raw]|];
    cbn -[after_harvest]; rewrite Hg; cbn;
    rewrite ?lookup_insert_ne by congruence; reflexivity.
Qed.

(** A call that returns keeps every trajectory it held or harvested: in the
    buffer, or in a shard. *)
Lemma dumps_retains force (w w' : W) d env (t : T) :
  trajectory_dump_dir (self w) = Some d ->
  _train_env (self w) = Some env ->
  dumps force w w' ->
  In t (_trajectory_buffer (self w)) \/ in_some_shard (gfile w) t
    \/ In t (harvested force env) ->
  In t (_trajectory_buffer (self w')) \/ in_some_shard (gfile w') t.
Proof.
  intros Hd He Hdump Hin. unfold dumps in Hdump.
  rewrite (dump_trajectories_eq _ _ d env) in Hdump by assumption.
  cbv zeta in Hdump.
  pose proof (after_harvest_buffer force d w env He) as Hb.
  destruct (after_harvest_frame force d w) as (Hg & _).
  assert (Hin1 : In t (_trajectory_buffer (self (after_harvest force d w)))
                 \/ in_some_shard (gfile w) t).
  { rewrite Hb. rewrite in_app_iff. tauto. }
  clear Hin.
  destruct (writes_shard force d w).
  2:{ injection Hdump as <-. destruct Hin1 as [Hin1|(p & l & Hp & Hl)]; [now left|].
      right. exists p, l. now rewrite Hg. }
  destruct (epoch (after_harvest force d w)) as [e|x]; [|discriminate].
  destruct (files (gfile w) !! shard_path d e) as [[old|raw]|] eqn:Ec;
    cbn [pkl_load] in Hdump; try discriminate; injection Hdump as <-;
    right; unfold in_some_shard; cbn -[after_harvest In]; rewrite Hg;
    cbn -[after_harvest In].
  - destruct Hin1 as [Hin1|(p & l & Hp & Hl)].
    + eexists _, _. rewrite lookup_insert_eq. split; [reflexivity|].
      apply in_or_app. now right.
    + destruct (decide (p = shard_path d e)) as [->|Hne].
      * rewrite Ec in Hp. injection Hp as ->.
        eexists _, _. rewrite lookup_insert_eq. split; [reflexivity|].
        apply in_or_app. now left.
      * exists p, l. rewrite lookup_insert_ne by congruence. now split.
  - destruct Hin1 as [Hin1|(p & l & Hp & Hl)].
    + eexists _, _. rewrite lookup_insert_eq. split; [reflexivity|]. assumption.
    + destruct (decide (p = shard_path d e)) as [->|Hne]; [congruence|].
      exists p, l. rewrite lookup_insert_ne by congruence. now split.
Qed.


(** ** The claims about [dump_trajectories] *)

(** C10. When no trajectory dump directory is configured, [dump_trajectories]
    returns for either value of [force] and leaves the world exactly as it
    found it: the buffer, the store of the environment (neither completed
    nor cleared), the directories, the files and the history of file
    operations are all unchanged. *)
Theorem C10_dump_without_dir_changes_nothing (w : W) (force : bool) :
  trajectory_dump_dir (self w) = None ->
  dump_trajectories force w = (Returns tt, w).
Proof. apply dump_trajectories_no_dir. Qed.

(** C9. On a trajectory without time steps [has_any_action] returns (the
    empty list, which is falsy) instead of indexing the first step; the
    filter therefore returns on every completed set and drops such a
    trajectory, no call harvests it, and along any run of dumps it reaches
    neither the buffer nor a shard unless it was there before the run. *)
Theorem C9_empty_trajectory_is_filtered (t : T) :
  time_steps t = [] ->
  has_any_action t = Returns (PyList [])
  /\ (forall l, exists kept,
        py_filter has_any_action l = Returns kept /\ ~ In t kept)
  /\ (forall force env, ~ In t (harvested force env))
  /\ (forall w w' : W,
        all_trajectories (fun t' => t' <> t) w ->
        dump_run w w' ->
        all_trajectories (fun t' => t' <> t) w').
Proof.
  intros Hts.
  assert (Hk : keeps t = false) by now rewrite keeps_first_step, Hts.
  split; [|split; [|split]].
  - now rewrite has_any_action_returns, Hts.
  - intros l. exists (List.filter keeps l). split.
    + apply py_filter_has_any_action.
    + intros Hin. apply List.filter_In in Hin as [_ Hin]. congruence.
  - intros force env Hin. apply harvested_keeps in Hin. congruence.
  - intros w w' Hall Hrun. revert Hall. apply dump_run_all; [|assumption].
    intros t' Hk' ->. congruence.
Qed.

Lemma init_buffer_empty te ee od dd mc am (t : Trainer) :
  __init__ te ee od dd mc am = Returns t -> _trajectory_buffer t = [].
Proof.
  unfold __init__, set_train_env, bind, gets, modify, raise. cbn.
  destruct te as [e|]; cbn; [|discriminate].
  intros [= <-]. reflexivity.
Qed.

(** C5. The filter drops every degenerate trajectory, so nothing a call
    harvests into the buffer is degenerate; and from a freshly constructed
    trainer over a file system that holds no degenerate trajectory, along
    any run of dumps (forced or not, returning or raising), no degenerate
    trajectory is in the buffer, in a stored shard, or in any shard that was
    ever written. *)
Theorem C5_degenerate_never_in_a_shard :
  (forall t : T, degenerate t -> keeps t = false)
  /\ (forall force env (t : T), In t (harvested force env) -> ~ degenerate t)
  /\ (forall (w w' : W),
        all_trajectories (fun t => ~ degenerate t) w ->
        dump_run w w' ->
        all_trajectories (fun t => ~ degenerate t) w')
  /\ (forall te ee od dd mc am trainer fs (u : U) w',
        __init__ te ee od dd mc am = Returns trainer ->
        (forall p l, files fs !! p = Some (Pickled l) ->
                     Forall (fun t => ~ degenerate t) l) ->
        oplog fs = [] ->
        dump_run {| self := trainer; gfile := fs; sub := u |} w' ->
        forall p l,
          files (gfile w') !! p = Some (Pickled l)
          \/ In (OpWrite p (Pickled l)) (oplog (gfile w')) ->
          forall t, In t l -> ~ degenerate t).
Proof.
  assert (Hkd : forall t : T, keeps t = true -> ~ degenerate t)
    by apply keeps_not_degenerate.
  split; [|split; [|split]].
  - intros t Hdeg. destruct (keeps t) eqn:Hk; [|reflexivity].
    now apply Hkd in Hk.
  - intros force env t Hin. apply Hkd. eapply harvested_keeps; eauto.
  - intros w w' Hall Hrun. eapply dump_run_all; eauto.
  - intros te ee od dd mc am trainer fs u w' Hinit Hfs Hlog Hrun p l Hpl t Hin.
    assert (Hall : all_trajectories (fun t => ~ degenerate t) w').
    { eapply dump_run_all; eauto. split; cbn.
      - rewrite (init_buffer_empty _ _ _ _ _ _ _ Hinit). constructor.
      - assumption.
      - rewrite Hlog. intros ? ? []. }
    destruct Hall as [_ Hf Hw].
    destruct Hpl as [Hpl|Hpl]; [apply Hf in Hpl | apply Hw in Hpl];
      rewrite List.Forall_forall in Hpl; now apply Hpl.
Qed.

(** C4. With a dump directory configured, a bound environment, an epoch
    property that returns and no foreign file at the shard path,
    [dump_trajectories(force=True)] returns with an empty buffer and has
    written the shard of the current epoch, whatever the minimum count per
    shard: the shard holds what was on disk at that path (nothing, if there
    was no shard), then the buffer, then the harvest, and the write is the
    last file operation of the call. When buffer and harvest are both empty
    the shard is rewritten with what it held. *)
Theorem C4_forced_dump_flushes (w : W) (d : string) (env : Env St) (e : Z) :
  trajectory_dump_dir (self w) = Some d ->
  _train_env (self w) = Some env ->
  epoch (after_harvest true d w) = Returns e ->
  (forall raw, files (gfile w) !! shard_path d e <> Some (Raw raw)) ->
  exists w',
    let on_disk := default [] (shard_at (gfile w) (shard_path d e)) in
    let shard := on_disk ++ _trajectory_buffer (self w) ++ harvested true env in
    dump_trajectories true w = (Returns tt, w')
    /\ _trajectory_buffer (self w') = []
    /\ files (gfile w') = <[shard_path d e := Pickled shard]> (files (gfile w))
    /\ last (oplog (gfile w')) = Some (OpWrite (shard_path d e) (Pickled shard))
    /\ (_trajectory_buffer (self w) = [] -> harvested true env = [] ->
        files (gfile w') !! shard_path d e = Some (Pickled on_disk)).
Proof.
  intros Hd He Hep Hraw.
  rewrite (dump_trajectories_eq _ _ d env) by assumption. cbv zeta.
  assert (Hws : writes_shard true d w = true)
    by (unfold writes_shard; apply Bool.orb_true_r).
  rewrite Hws, Hep.
  pose proof (after_harvest_buffer true d w env He) as Hb.
  destruct (after_harvest_frame true d w) as (Hg & _).
  unfold shard_at.
  destruct (files (gfile w) !! shard_path d e) as [[old|raw]|] eqn:Ec;
    [| now destruct (Hraw raw) |]; cbn [pkl_load default];
    eexists; (split; [reflexivity|]); cbn -[after_harvest];
    rewrite Hg, Hb; cbn; repeat split.
  - apply last_snoc.
  - intros -> ->. rewrite lookup_insert_eq. now rewrite app_nil_r.
  - apply last_snoc.
  - intros -> ->. now rewrite lookup_insert_eq.
Qed.

(** A writing call that finds a shard at its path prepends it. *)
Lemma dump_trajectories_merges
    (w : W) (force : bool) (d : string) (env : Env St) (e : Z) (on_disk : list T) :
  trajectory_dump_dir (self w) = Some d ->
  _train_env (self w) = Some env ->
  epoch (after_harvest force d w) = Returns e ->
  files (gfile w) !! shard_path d e = Some (Pickled on_disk) ->
  writes_shard force d w = true ->
  exists w',
    let added := _trajectory_buffer (self w) ++ harvested force env in
    dump_trajectories force w = (Returns tt, w')
    /\ files (gfile w') = <[shard_path d e := Pickled (on_disk ++ added)]> (files (gfile w))
    /\ shard_at (gfile w') (shard_path d e) = Some (on_disk ++ added)
    /\ length (on_disk ++ added) = (length on_disk + length added)%nat
    /\ _trajectory_buffer (self w') = [].
Proof.
  intros Hd He Hep Hfile Hws.
  rewrite (dump_trajectories_eq _ _ d env) by assumption. cbv zeta.
  rewrite Hws, Hep, Hfile. cbn [pkl_load].
  pose proof (after_harvest_buffer force d w env He) as Hb.
  destruct (after_harvest_frame force d w) as (Hg & _).
  eexists. split; [reflexivity|]. unfold shard_at. cbn -[after_harvest].
  rewrite Hg, Hb. cbn. rewrite lookup_insert_eq. repeat split.
  apply length_app.
Qed.

(** C1. When a call of [dump_trajectories] writes (it is forced, or the
    buffer has reached the minimum) and a shard already exists at the shard
    path of the epoch, as after an earlier dump at that epoch, the call
    returns and the one shard at that path holds the sequence that was on
    disk followed by the buffered and then the harvested trajectories,
    element for element; its length is the sum of the two and no other file
    changes. *)
Theorem C1_dump_merges_into_existing_shard
    (w : W) (force : bool) (d : string) (env : Env St) (e : Z) (on_disk : list T) :
  trajectory_dump_dir (self w) = Some d ->
  _train_env (self w) = Some env ->
  epoch (after_harvest force d w) = Returns e ->
  files (gfile w) !! shard_path d e = Some (Pickled on_disk) ->
  writes_shard force d w = true ->
  exists w',
    let added := _trajectory_buffer (self w) ++ harvested force env in
    dump_trajectories force w = (Returns tt, w')
    /\ files (gfile w') = <[shard_path d e := Pickled (on_disk ++ added)]> (files (gfile w))
    /\ shard_at (gfile w') (shard_path d e) = Some (on_disk ++ added)
    /\ length (on_disk ++ added) = (length on_disk + length added)%nat
    /\ _trajectory_buffer (self w') = [].
Proof. apply dump_trajectories_merges. Qed.

(** A writing call that finds no file at its path creates the shard. *)
Lemma dump_trajectories_creates
    (w : W) (force : bool) (d : string) (env : Env St) (e : Z) :
  trajectory_dump_dir (self w) = Some d ->
  _train_env (self w) = Some env ->
  epoch (after_harvest force d w) = Returns e ->
  files (gfile w) !! shard_path d e = None ->
  writes_shard force d w = true ->
  exists w',
    let added := _trajectory_buffer (self w) ++ harvested force env in
    dump_trajectories force w = (Returns tt, w')
    /\ files (gfile w') = <[shard_path d e := Pickled added]> (files (gfile w))
    /\ _trajectory_buffer (self w') = [].
Proof.
  intros Hd He Hep Hfile Hws.
  rewrite (dump_trajectories_eq _ _ d env) by assumption. cbv zeta.
  rewrite Hws, Hep, Hfile.
  pose proof (after_harvest_buffer force d w env He) as Hb.
  destruct (after_harvest_frame force d w) as (Hg & _).
  eexists. split; [reflexivity|]. cbn -[after_harvest].
  rewrite Hg, Hb. cbn. split; reflexivity.
Qed.

(** The double dump of an epoch, end to end: a periodic dump that finds no
    shard and writes, the environment running on at the same epoch, then the
    forced dump of the end of the loop. *)
Lemma double_dump_same_epoch (w0 w1 w2 : W) d env0 env2 e :
  trajectory_dump_dir (self w0) = Some d ->
  _train_env (self w0) = Some env0 ->
  epoch (after_harvest false d w0) = Returns e ->
  files (gfile w0) !! shard_path d e = None ->
  writes_shard false d w0 = true ->
  dump_trajectories false w0 = (Returns tt, w1) ->
  between_dumps w1 w2 ->
  _train_env (self w2) = Some env2 ->
  epoch (after_harvest true d w2) = Returns e ->
  exists w3,
    dump_trajectories true w2 = (Returns tt, w3)
    /\ files (gfile w3)
       = <[shard_path d e :=
             Pickled ((_trajectory_buffer (self w0) ++ harvested false env0)
                      ++ harvested true env2)]> (files (gfile w0))
    /\ _trajectory_buffer (self w3) = [].
Proof.
  intros Hd He Hep Hnone Hws Hdump [Hg Hb Hm Hdir] He2 Hep2.
  destruct (dump_trajectories_creates w0 false d env0 e)
    as (w1' & Hdump' & Hf1 & Hb1); try assumption.
  cbv zeta in Hdump', Hf1. rewrite Hdump in Hdump'. injection Hdump' as <-.
  destruct (dump_trajectories_frame false w0) as (_ & Hd1 & _).
  rewrite Hdump in Hd1. cbn [snd] in Hd1.
  destruct (dump_trajectories_merges w2 true d env2 e
              (_trajectory_buffer (self w0) ++ harvested false env0))
    as (w3 & H1 & H2 & _ & _ & H3); try assumption.
  - congruence.
  - rewrite Hg, Hf1. apply lookup_insert_eq.
  - unfold writes_shard. apply Bool.orb_true_r.
  - exists w3. cbv zeta in H1, H2. rewrite Hb, Hb1 in H2. cbn in H2.
    repeat split; try assumption.
    rewrite H2, Hg, Hf1. now rewrite insert_insert_eq.
Qed.


(** ** Periodic dumps *)

Lemma keeps_false_iff (t : T) :
  keeps t = false <-> degenerate t \/ time_steps t = [].
Proof.
  rewrite keeps_first_step. unfold degenerate. split.
  - destruct (time_steps t) as [|step rest]; [now right|].
    destruct (action step) eqn:Ha; [discriminate|]. left. eauto.
  - intros [(step & rest & -> & ->)| ->]; reflexivity.
Qed.

Lemma written_paths_makedirs (ops : list (FsOp T)) d :
  written_paths (ops ++ [OpMakedirs d]) = written_paths ops.
Proof. unfold written_paths. rewrite omap_app. cbn. apply app_nil_r. Qed.

(** Below the minimum an unforced call only harvests. *)
Lemma dump_trajectories_below_min (w : W) d env :
  trajectory_dump_dir (self w) = Some d ->
  _train_env (self w) = Some env ->
  Z.of_nat (length (_trajectory_buffer (self w) ++ harvested false env))
    < _trajectory_dump_min_count_per_shard (self w) ->
  dump_trajectories false w = (Returns tt, after_harvest false d w).
Proof.
  intros Hd He Hlt.
  rewrite (dump_trajectories_eq _ _ d env) by assumption. cbv zeta.
  unfold writes_shard. rewrite (after_harvest_buffer _ _ _ env) by assumption.
  rewrite Bool.orb_false_r.
  destruct (Z.leb_spec (_trajectory_dump_min_count_per_shard (self w))
              (Z.of_nat (length (_trajectory_buffer (self w) ++ harvested false env))));
    [lia | reflexivity].
Qed.

(** An unforced call that writes has reached the minimum. *)
Lemma dump_trajectories_writes_ready (w : W) d env :
  trajectory_dump_dir (self w) = Some d ->
  _train_env (self w) = Some env ->
  written_paths (oplog (gfile (snd (dump_trajectories false w))))
    <> written_paths (oplog (gfile w)) ->
  _trajectory_dump_min_count_per_shard (self w)
    <= Z.of_nat (length (_trajectory_buffer (self w) ++ harvested false env)).
Proof.
  intros Hd He Hw.
  destruct (Z.le_gt_cases (_trajectory_dump_min_count_per_shard (self w))
              (Z.of_nat (length (_trajectory_buffer (self w) ++ harvested false env))))
    as [Hle|Hlt]; [assumption|].
  exfalso. apply Hw.
  rewrite (dump_trajectories_below_min w d env) by assumption. cbn [snd].
  destruct (after_harvest_frame false d w) as (Hg & _). rewrite Hg. cbn.
  apply written_paths_makedirs.
Qed.

Lemma periodic_dumps_frame (w w' : W) hs :
  periodic_dumps w hs w' ->
  trajectory_dump_dir (self w') = trajectory_dump_dir (self w)
  /\ _trajectory_dump_min_count_per_shard (self w')
     = _trajectory_dump_min_count_per_shard (self w).
Proof.
  induction 1 as [w|w hs w1 w2 w3 env Hrun [IHd IHm] [Hg Hb Hm Hd] He Hdump].
  - split; reflexivity.
  - destruct (dump_trajectories_frame false w2) as (_ & Hd' & Hm' & _).
    unfold dumps in Hdump. rewrite Hdump in Hd', Hm'. cbn [snd] in Hd', Hm'.
    split; congruence.
Qed.

Lemma periodic_dumps_retains (w w' : W) hs d (t : T) :
  trajectory_dump_dir (self w) = Some d ->
  periodic_dumps w hs w' ->
  In t (_trajectory_buffer (self w)) \/ in_some_shard (gfile w) t
    \/ (In t (concat hs) /\ keeps t = true) ->
  In t (_trajectory_buffer (self w')) \/ in_some_shard (gfile w') t.
Proof.
  intros Hd Hrun. revert t.
  induction Hrun as [w|w hs w1 w2 w3 env Hrun IH Hbd He Hdump]; intros t Hin.
  - destruct Hin as [Hin|[Hin|[[] _]]]; tauto.
  - destruct (periodic_dumps_frame _ _ _ Hrun) as (Hd1 & _).
    destruct Hbd as [Hg Hb Hm Hd2].
    apply (dumps_retains false w2 w3 d env); try assumption; [congruence|].
    rewrite Hb, Hg.
    destruct Hin as [Hin|[Hin|[Hin Hk]]].
    + specialize (IH Hd t (or_introl Hin)). tauto.
    + specialize (IH Hd t (or_intror (or_introl Hin))). tauto.
    + rewrite concat_app in Hin. apply in_app_or in Hin as [Hin|Hin].
      * specialize (IH Hd t (or_intror (or_intror (conj Hin Hk)))). tauto.
      * right. right. unfold harvested, store_at_harvest.
        apply List.filter_In. cbn in Hin. rewrite app_nil_r in Hin. now split.
Qed.

Lemma periodic_dumps_below_min (w w' : W) hs d :
  trajectory_dump_dir (self w) = Some d ->
  periodic_dumps w hs w' ->
  Z.of_nat (length (_trajectory_buffer (self w)
                    ++ List.filter keeps (concat hs)))
    < _trajectory_dump_min_count_per_shard (self w) ->
  files (gfile w') = files (gfile w)
  /\ written_paths (oplog (gfile w')) = written_paths (oplog (gfile w))
  /\ _trajectory_buffer (self w')
     = _trajectory_buffer (self w) ++ List.filter keeps (concat hs).
Proof.
  intros Hd Hrun.
  induction Hrun as [w|w hs w1 w2 w3 env Hrun IH Hbd He Hdump]; intros Hlt.
  - cbn. now rewrite app_nil_r.
  - rewrite concat_app, List.filter_app in Hlt. cbn in Hlt.
    rewrite app_nil_r in Hlt.
    rewrite !length_app in Hlt.
    destruct IH as (IHf & IHw & IHb); [assumption | rewrite length_app; lia |].
    destruct (periodic_dumps_frame _ _ _ Hrun) as (Hd1 & Hm1).
    destruct Hbd as [Hg Hb Hm Hd2].
    assert (Hd3 : trajectory_dump_dir (self w2) = Some d) by congruence.
    unfold dumps in Hdump.
    rewrite (dump_trajectories_below_min w2 d env) in Hdump; try assumption.
    2:{ rewrite Hm, Hm1, Hb, IHb. unfold harvested, store_at_harvest.
        rewrite !length_app. lia. }
    injection Hdump as <-.
    destruct (after_harvest_frame false d w2) as (Hg3 & _).
    rewrite Hg3, (after_harvest_buffer false d w2 env He), Hb, Hg, IHb.
    cbn [files oplog fs_makedirs]. rewrite written_paths_makedirs, IHf, IHw.
    rewrite concat_app, List.filter_app. cbn. rewrite app_nil_r.
    unfold harvested, store_at_harvest. now rewrite <- app_assoc.
Qed.

(** C3. Along every sequence of [dump_trajectories(force=False)] calls with
    a dump directory configured: a trajectory that was in the completed set
    of the store at the time of a call was either dropped by the filter (it
    is degenerate or has no step) or is, at the end, in the buffer or in a
    shard; the trajectories buffered at the start are kept likewise; and as
    long as the buffered count stays below the minimum count per shard every
    call returns having only harvested, so that no file was written and the
    buffer holds everything, in order.  A call that does write has reached
    the minimum. *)
Theorem C3_periodic_dumps_keep_and_wait (w w' : W) (hs : list (list T)) (d : string) :
  trajectory_dump_dir (self w) = Some d ->
  periodic_dumps w hs w' ->
  (forall t, In t (concat hs) ->
     (degenerate t \/ time_steps t = [])
     \/ In t (_trajectory_buffer (self w')) \/ in_some_shard (gfile w') t)
  /\ (forall t, In t (_trajectory_buffer (self w)) ->
        In t (_trajectory_buffer (self w')) \/ in_some_shard (gfile w') t)
  /\ (Z.of_nat (length (_trajectory_buffer (self w)
                        ++ List.filter keeps (concat hs)))
        < _trajectory_dump_min_count_per_shard (self w) ->
      files (gfile w') = files (gfile w)
      /\ written_paths (oplog (gfile w')) = written_paths (oplog (gfile w))
      /\ _trajectory_buffer (self w')
         = _trajectory_buffer (self w) ++ List.filter keeps (concat hs))
  /\ (forall env,
        _train_env (self w') = Some env ->
        (Z.of_nat (length (_trajectory_buffer (self w') ++ harvested false env))
           < _trajectory_dump_min_count_per_shard (self w') ->
         dump_trajectories false w' = (Returns tt, after_harvest false d w')
         /\ files (gfile (after_harvest false d w')) = files (gfile w')
         /\ _trajectory_buffer (self (after_harvest false d w'))
            = _trajectory_buffer (self w') ++ harvested false env)
        /\ (written_paths (oplog (gfile (snd (dump_trajectories false w'))))
              <> written_paths (oplog (gfile w')) ->
            _trajectory_dump_min_count_per_shard (self w')
              <= Z.of_nat (length (_trajectory_buffer (self w')
                                   ++ harvested false env)))).
Proof.
  intros Hd Hrun. split; [|split; [|split]].
  - intros t Hin. destruct (keeps t) eqn:Hk.
    + right. apply (periodic_dumps_retains w w' hs d); auto.
    + left. now apply keeps_false_iff.
  - intros t Hin. apply (periodic_dumps_retains w w' hs d); auto.
  - now apply (periodic_dumps_below_min w w' hs d).
  - intros env He.
    destruct (periodic_dumps_frame _ _ _ Hrun) as (Hd' & _).
    rewrite Hd in Hd'. split.
    + intros Hlt. split; [now apply (dump_trajectories_below_min w' d env)|].
      destruct (after_harvest_frame false d w') as (Hg & _). rewrite Hg.
      split; [reflexivity | now apply after_harvest_buffer].
    + now apply (dump_trajectories_writes_ready w' d env).
Qed.


(** ** Binding the training environment *)

Lemma set_train_env_first (t : Trainer) (env : Env St) :
  _train_env t = None ->
  set_train_env (Some env) t
  = (Returns tt,
     set_should_reset_train_env true
       (set_train_env_attr (Some env)
          (set_observation_space (Some (observation_space env))
             (set_action_space (Some (action_space env)) t)))).
Proof.
  intros Hnone. unfold set_train_env, bind, gets, modify. rewrite Hnone.
  reflexivity.
Qed.

Lemma set_train_env_next (t : Trainer) (cur new : Env St) (a o : Space) :
  _train_env t = Some cur ->
  _action_space t = Some a ->
  _observation_space t = Some o ->
  set_train_env (Some new) t
  = if same_shape (observation_space new) o && same_dtype (observation_space new) o
       && same_shape (action_space new) a && same_dtype (action_space new) a
    then (Returns tt,
          set_should_reset_train_env true (set_train_env_attr (Some new) t))
    else (Raises AssertionError, t).
Proof.
  intros Hcur Ha Ho.
  unfold set_train_env, _assert_env_compatible, assert_same_space, py_assert.
  unfold bind, gets, modify, ret, raise. rewrite Hcur.
  cbn -[same_shape same_dtype]. rewrite Ho.
  destruct (same_shape (observation_space new) o);
    cbn -[same_shape same_dtype]; [|reflexivity].
  destruct (same_dtype (observation_space new) o);
    cbn -[same_shape same_dtype]; [|reflexivity].
  rewrite Ha.
  destruct (same_shape (action_space new) a);
    cbn -[same_shape same_dtype]; [|reflexivity].
  destruct (same_dtype (action_space new) a); reflexivity.
Qed.

(** C6. Binding a first training environment adopts its action and
    observation spaces as the reference, whatever they are.  Binding a later
    environment whose action space or observation space differs from the
    reference in shape or in element type raises (the [AssertionError] of
    [_assert_env_compatible]) and leaves the trainer as it was; binding a
    later environment with the same shapes and element types returns and
    makes it the current environment. *)
Theorem C6_train_env_binding :
  (forall (t : Trainer) (env : Env St),
     _train_env t = None ->
     exists t',
       set_train_env (Some env) t = (Returns tt, t')
       /\ _train_env t' = Some env
       /\ _action_space t' = Some (action_space env)
       /\ _observation_space t' = Some (observation_space env)
       /\ _should_reset_train_env t' = true)
  /\ (forall (t : Trainer) (cur new : Env St) (a o : Space),
        _train_env t = Some cur ->
        _action_space t = Some a ->
        _observation_space t = Some o ->
        shape (action_space new) <> shape a
        \/ dtype (action_space new) <> dtype a
        \/ shape (observation_space new) <> shape o
        \/ dtype (observation_space new) <> dtype o ->
        set_train_env (Some new) t = (Raises AssertionError, t))
  /\ (forall (t : Trainer) (cur new : Env St) (a o : Space),
        _train_env t = Some cur ->
        _action_space t = Some a ->
        _observation_space t = Some o ->
        shape (action_space new) = shape a ->
        dtype (action_space new) = dtype a ->
        shape (observation_space new) = shape o ->
        dtype (observation_space new) = dtype o ->
        exists t',
          set_train_env (Some new) t = (Returns tt, t')
          /\ _train_env t' = Some new
          /\ _action_space t' = Some a
          /\ _observation_space t' = Some o
          /\ _should_reset_train_env t' = true).
Proof.
  split; [|split].
  - intros t env Hnone. rewrite set_train_env_first by assumption.
    eexists. split; [reflexivity|]. cbn. repeat split.
  - intros t cur new a o Hcur Ha Ho Hdiff.
    rewrite (set_train_env_next t cur new a o) by assumption.
    unfold same_shape, same_dtype.
    destruct Hdiff as [H|[H|[H|H]]];
      rewrite (bool_decide_eq_false_2 _ H);
      rewrite ?Bool.andb_false_r; reflexivity.
  - intros t cur new a o Hcur Ha Ho H1 H2 H3 H4.
    rewrite (set_train_env_next t cur new a o) by assumption.
    unfold same_shape, same_dtype.
    rewrite !bool_decide_eq_true_2 by assumption. cbn [andb].
    eexists. split; [reflexivity|]. cbn. repeat split; assumption.
Qed.

(** ** [reset] *)

(** C7. [reset] works on the output directory given as argument or, without
    one, on the one configured before.  When neither is present it raises
    (the [AssertionError] of its assertion), creates no directory and leaves
    the output directory unset; otherwise it returns, the output directory
    is that one and has been created, and the reset is marked as
    performed. *)
Theorem C7_reset_needs_an_output_dir (w : W) (output_dir : option string) :
  let effective := match output_dir with
                   | Some d => Some d
                   | None => _output_dir (self w)
                   end in
  (effective = None ->
   exists w',
     reset output_dir w = (Raises AssertionError, w')
     /\ gfile w' = gfile w
     /\ _output_dir (self w') = None)
  /\ (forall d, effective = Some d ->
      exists w',
        reset output_dir w = (Returns tt, w')
        /\ _output_dir (self w') = Some d
        /\ d ∈ dirs (gfile w')
        /\ last (oplog (gfile w')) = Some (OpMakedirs d)
        /\ files (gfile w') = files (gfile w)
        /\ _trainer_reset_called (self w') = true).
Proof.
  cbv zeta. unfold reset, bind, gets, modify, ret, raise. split.
  - intros Heff. destruct output_dir as [d|]; [discriminate|].
    cbn. rewrite Heff. eexists. split; [reflexivity|]. cbn. now split.
  - intros d Heff. destruct output_dir as [d'|].
    + injection Heff as ->. cbn. eexists. split; [reflexivity|]. cbn.
      repeat split; [set_solver | apply last_snoc].
    + cbn. rewrite Heff. eexists. split; [reflexivity|]. cbn.
      repeat split; [assumption | set_solver | apply last_snoc].
Qed.

(** ** [indicate_done] *)

Lemma indicate_done_sync (w : W) :
  _async_mode (self w) = false -> indicate_done w = (Returns tt, w).
Proof.
  intros Ha. unfold indicate_done, bind, gets, ret. rewrite Ha. reflexivity.
Qed.

Lemma indicate_done_async (w : W) d :
  _async_mode (self w) = true ->
  _output_dir (self w) = Some d ->
  indicate_done w
  = (Returns tt, on_gfile (fs_write (marker_path d) (Raw "")) w).
Proof.
  intros Ha Ho. unfold indicate_done, bind, gets, ret, modify.
  rewrite Ha. cbn. rewrite Ho. reflexivity.
Qed.


(** ** The loop: rules for its combinators *)

Abbreviation R := (W * list Call)%type.

Lemma keeps_world_ret {A} (I : W -> Prop) (a : A) : keeps_world I (ret a : M R A).
Proof. intros r Hr. exact Hr. Qed.

Lemma keeps_world_bind {A B} (I : W -> Prop) (m : M R A) (k : A -> M R B) :
  keeps_world I m -> (forall a, keeps_world I (k a)) -> keeps_world I (bind m k).
Proof.
  intros Hm Hk r Hr. unfold bind. specialize (Hm r Hr).
  destruct (m r) as [[a|x] r1]; cbn in *; [now apply Hk | assumption].
Qed.

Lemma keeps_world_call {A} (I : W -> Prop) c (m : M W A) :
  (forall w, I w -> I (snd (m w))) -> keeps_world I (call c m).
Proof.
  intros Hm r Hr. unfold call. specialize (Hm (fst r) Hr).
  destruct (m (fst r)). exact Hm.
Qed.

Lemma keeps_world_the_world {A} (I : W -> Prop) (m : M W A) :
  (forall w, I w -> I (snd (m w))) -> keeps_world I (the_world m).
Proof.
  intros Hm r Hr. unfold the_world. specialize (Hm (fst r) Hr).
  destruct (m (fst r)). exact Hm.
Qed.

Lemma keeps_world_for_range (I : W -> Prop) n (body : M R unit) :
  keeps_world I body -> keeps_world I (for_range n body).
Proof.
  intros Hb. induction n as [|n IH]; cbn.
  - apply keeps_world_ret.
  - apply keeps_world_bind; [assumption | intros _; assumption].
Qed.

Lemma returns_from_ret {A} (I : W -> Prop) (a : A) : returns_from I (ret a : M R A).
Proof. intros r Hr. now split. Qed.

Lemma returns_from_bind {A B} (I : W -> Prop) (m : M R A) (k : A -> M R B) :
  returns_from I m -> (forall a, returns_from I (k a)) -> returns_from I (bind m k).
Proof.
  intros Hm Hk r Hr. unfold bind. destruct (Hm r Hr) as [H1 H2].
  destruct (m r) as [[a|x] r1]; cbn in *; [now apply Hk | contradiction].
Qed.

Lemma returns_from_call {A} (I : W -> Prop) c (m : M W A) :
  (forall w, I w -> is_returns (fst (m w)) /\ I (snd (m w))) ->
  returns_from I (call c m).
Proof.
  intros Hm r Hr. unfold call. specialize (Hm (fst r) Hr).
  destruct (m (fst r)). exact Hm.
Qed.

Lemma returns_from_the_world {A} (I : W -> Prop) (m : M W A) :
  (forall w, I w -> is_returns (fst (m w)) /\ I (snd (m w))) ->
  returns_from I (the_world m).
Proof.
  intros Hm r Hr. unfold the_world. specialize (Hm (fst r) Hr).
  destruct (m (fst r)). exact Hm.
Qed.

Lemma returns_from_for_range (I : W -> Prop) n (body : M R unit) :
  returns_from I body -> returns_from I (for_range n body).
Proof.
  intros Hb. induction n as [|n IH]; cbn.
  - apply returns_from_ret.
  - apply returns_from_bind; [assumption | intros _; assumption].
Qed.

Lemma makes_calls_ret {A} (a : A) : makes_calls (ret a : M R A) [].
Proof.
  intros r. exists []. cbn. rewrite app_nil_r. repeat split. reflexivity.
Qed.

Lemma makes_calls_the_world {A} (m : M W A) : makes_calls (the_world m) [].
Proof.
  intros r. exists []. unfold the_world. destruct (m (fst r)). cbn.
  rewrite app_nil_r. repeat split. reflexivity.
Qed.

Lemma makes_calls_call {A} c (m : M W A) : makes_calls (call c m) [c].
Proof.
  intros r. exists [c]. unfold call. destruct (m (fst r)). cbn.
  repeat split. reflexivity.
Qed.

Lemma makes_calls_bind {A B} (m : M R A) (k : A -> M R B) l1 l2 :
  makes_calls m l1 -> (forall a, makes_calls (k a) l2) ->
  makes_calls (bind m k) (l1 ++ l2).
Proof.
  intros Hm Hk r. unfold bind. destruct (Hm r) as (l1' & E1 & P1 & F1).
  destruct (m r) as [[a|x] r1]; cbn in *.
  - rewrite (F1 I) in E1.
    destruct (Hk a r1) as (l2' & E2 & P2 & F2).
    exists (l1 ++ l2'). rewrite E2, E1, app_assoc. split; [reflexivity|].
    split; [now apply prefix_app | intros Hr; now rewrite (F2 Hr)].
  - exists l1'. split; [assumption|].
    split; [now apply prefix_app_r | contradiction].
Qed.

Lemma makes_calls_for_range n (body : M R unit) l :
  makes_calls body l -> makes_calls (for_range n body) (concat (replicate n l)).
Proof.
  intros Hb. induction n as [|n IH]; cbn.
  - apply makes_calls_ret.
  - apply makes_calls_bind; [assumption | intros _; assumption].
Qed.

Lemma loop_body_makes_calls eval_flag :
  makes_calls (loop_body eval_flag) (body_calls eval_flag).
Proof.
  unfold loop_body, body_calls.
  apply (makes_calls_bind _ _ [_] [_; _]); [apply makes_calls_call|]. intros _.
  apply (makes_calls_bind _ _ [_] [_]); [apply makes_calls_call|]. intros _.
  apply makes_calls_call.
Qed.

Lemma after_loop_makes_calls eval_flag :
  makes_calls (after_loop eval_flag) (final_calls eval_flag).
Proof.
  unfold after_loop, final_calls.
  apply (makes_calls_bind _ _ [_] (_ :: _)); [apply makes_calls_call|]. intros _.
  apply (makes_calls_bind _ _ [_] _); [apply makes_calls_call|]. intros _.
  apply makes_calls_bind.
  - destruct eval_flag; [apply makes_calls_call | apply makes_calls_ret].
  - intros _.
    apply (makes_calls_bind _ _ [_] [_]); [apply makes_calls_call|]. intros _.
    apply makes_calls_call.
Qed.


(** ** The loop as a whole *)

Lemma read_epoch_world (w : W) : snd (read_epoch w) = w.
Proof. reflexivity. Qed.

Lemma training_loop_keeps_world (I : W -> Prop) n eval_flag :
  hooks_preserve I ->
  (forall od w, I w -> I (snd (reset od w))) ->
  (forall force w, I w -> I (snd (dump_trajectories force w))) ->
  (forall w, I w -> I (snd (indicate_done w))) ->
  keeps_world I (training_loop n eval_flag).
Proof.
  intros [H1 H2 H3 H4 H5] Hreset Hdump Hdone. unfold training_loop.
  apply keeps_world_bind; [now apply keeps_world_the_world|]. intros called.
  apply keeps_world_bind.
  { destruct called; cbn [negb]; [apply keeps_world_ret|].
    apply keeps_world_bind; [now apply keeps_world_the_world|]. intros od.
    apply keeps_world_call. auto. }
  intros _. apply keeps_world_bind; [now apply keeps_world_the_world|].
  intros first. apply keeps_world_bind.
  { apply keeps_world_for_range. unfold loop_body.
    repeat (apply keeps_world_bind; [apply keeps_world_call; auto | intros _]).
    apply keeps_world_call; auto. }
  intros _. unfold after_loop.
  repeat (apply keeps_world_bind; [apply keeps_world_call; auto | intros _]).
  apply keeps_world_bind.
  { destruct eval_flag; [apply keeps_world_call; auto | apply keeps_world_ret]. }
  intros _.
  apply keeps_world_bind; [apply keeps_world_call; auto | intros _].
  apply keeps_world_call; auto.
Qed.

Lemma training_loop_returns_from (I : W -> Prop) n eval_flag :
  hooks_preserve I ->
  hooks_return I ->
  (forall od w, I w -> is_returns (fst (reset od w)) /\ I (snd (reset od w))) ->
  (forall force w, I w ->
     is_returns (fst (dump_trajectories force w))
     /\ I (snd (dump_trajectories force w))) ->
  (forall w, I w -> is_returns (fst (indicate_done w)) /\ I (snd (indicate_done w))) ->
  returns_from I (training_loop n eval_flag).
Proof.
  intros [H1 H2 H3 H4 H5] [G0 G1 G2 G3 G4 G5] Hreset Hdump Hdone.
  unfold training_loop.
  apply returns_from_bind; [apply returns_from_the_world; now split|].
  intros called. apply returns_from_bind.
  { destruct called; cbn [negb]; [apply returns_from_ret|].
    apply returns_from_bind; [apply returns_from_the_world; now split|].
    intros od. apply returns_from_call. auto. }
  intros _. apply returns_from_bind.
  { apply returns_from_the_world. intros w Hw. split; [|assumption].
    apply (G0 w Hw). }
  intros first. apply returns_from_bind.
  { apply returns_from_for_range. unfold loop_body.
    repeat (apply returns_from_bind; [apply returns_from_call; auto | intros _]).
    apply returns_from_call; auto. }
  intros _. unfold after_loop.
  repeat (apply returns_from_bind; [apply returns_from_call; auto | intros _]).
  apply returns_from_bind.
  { destruct eval_flag; [apply returns_from_call; auto | apply returns_from_ret]. }
  intros _.
  apply returns_from_bind; [apply returns_from_call; auto | intros _].
  apply returns_from_call; auto.
Qed.

Lemma loop_and_after_makes_calls k eval_flag :
  makes_calls (bind (for_range k (loop_body eval_flag))
                    (fun _ => after_loop eval_flag))
              (concat (replicate k (body_calls eval_flag)) ++ final_calls eval_flag).
Proof.
  apply makes_calls_bind.
  - apply makes_calls_for_range, loop_body_makes_calls.
  - intros _. apply after_loop_makes_calls.
Qed.

Lemma training_loop_calls n eval_flag (w : W) (calls0 : list Call) e0 :
  (_trainer_reset_called (self w) = false ->
   is_returns (fst (reset (_output_dir (self w)) w))) ->
  epoch (world_at_loop_entry w) = Returns e0 ->
  let run := training_loop n eval_flag (w, calls0) in
  let expected := expected_calls (negb (_trainer_reset_called (self w)))
                    (Z.to_nat (n - e0)) eval_flag in
  exists l,
    snd (snd run) = calls0 ++ l
    /\ l `prefix_of` expected
    /\ (is_returns (fst run) -> l = expected).
Proof.
  intros Hreset Hep. cbv zeta. unfold world_at_loop_entry in Hep.
  destruct (_trainer_reset_called (self w)) eqn:Hcalled; cbn [negb].
  - assert (Hrun : training_loop n eval_flag (w, calls0)
                   = bind (for_range (Z.to_nat (n - e0)) (loop_body eval_flag))
                       (fun _ => after_loop eval_flag) (w, calls0)).
    { unfold training_loop. unfold bind at 1. unfold the_world at 1.
      unfold gets at 1. cbn [fst snd]. rewrite Hcalled. cbn [negb].
      unfold bind at 1. unfold ret at 1. unfold bind at 1.
      unfold the_world at 1. unfold read_epoch at 1. cbn [fst snd].
      rewrite Hep. reflexivity. }
    rewrite Hrun.
    destruct (loop_and_after_makes_calls (Z.to_nat (n - e0)) eval_flag (w, calls0))
      as (l & E & P & F).
    exists l. unfold expected_calls. cbn [app]. auto.
  - specialize (Hreset eq_refl).
    destruct (reset (_output_dir (self w)) w) as [[[]|x] w1] eqn:Hr;
      [|contradiction].
    cbn [snd] in Hep.
    assert (Hrun : training_loop n eval_flag (w, calls0)
                   = bind (for_range (Z.to_nat (n - e0)) (loop_body eval_flag))
                       (fun _ => after_loop eval_flag)
                       (w1, calls0 ++ [CallReset])).
    { unfold training_loop. unfold bind at 1. unfold the_world at 1.
      unfold gets at 1. cbn [fst snd]. rewrite Hcalled. cbn [negb].
      unfold bind at 1. unfold bind at 1. unfold the_world at 1.
      unfold gets at 1. cbn [fst snd]. unfold call at 1. cbn [fst snd].
      rewrite Hr. unfold bind at 1.
      unfold the_world at 1. unfold read_epoch at 1. cbn [fst snd].
      rewrite Hep. reflexivity. }
    rewrite Hrun.
    destruct (loop_and_after_makes_calls (Z.to_nat (n - e0)) eval_flag
                (w1, calls0 ++ [CallReset])) as (l & E & P & F).
    exists ([CallReset] ++ l). cbn [snd] in E. rewrite E, app_assoc.
    unfold expected_calls.
    split; [reflexivity|]. split.
    + now apply prefix_app.
    + intros Hret. now rewrite (F Hret).
Qed.

Lemma training_loop_entered n eval_flag (w : W) (calls0 : list Call) :
  _trainer_reset_called (self w) = true ->
  training_loop n eval_flag (w, calls0)
  = match epoch w with
    | Returns e0 =>
        bind (for_range (Z.to_nat (n - e0)) (loop_body eval_flag))
          (fun _ => after_loop eval_flag) (w, calls0)
    | Raises x => (Raises x, (w, calls0))
    end.
Proof.
  intros Hcalled. unfold training_loop. unfold bind at 1. unfold the_world at 1.
  unfold gets at 1. cbn [fst snd]. rewrite Hcalled. cbn [negb].
  unfold bind at 1. unfold ret at 1. unfold bind at 1.
  unfold the_world at 1. unfold read_epoch at 1. cbn [fst snd].
  destruct (epoch w); reflexivity.
Qed.

Lemma training_loop_resets n eval_flag (w : W) (calls0 : list Call) :
  _trainer_reset_called (self w) = false ->
  training_loop n eval_flag (w, calls0)
  = match reset (_output_dir (self w)) w with
    | (Returns _, w1) =>
        match epoch w1 with
        | Returns e0 =>
            bind (for_range (Z.to_nat (n - e0)) (loop_body eval_flag))
              (fun _ => after_loop eval_flag) (w1, calls0 ++ [CallReset])
        | Raises x => (Raises x, (w1, calls0 ++ [CallReset]))
        end
    | (Raises x, w1) => (Raises x, (w1, calls0 ++ [CallReset]))
    end.
Proof.
  intros Hcalled. unfold training_loop. unfold bind at 1. unfold the_world at 1.
  unfold gets at 1. cbn [fst snd]. rewrite Hcalled. cbn [negb].
  unfold bind at 1. unfold bind at 1. unfold the_world at 1.
  unfold gets at 1. cbn [fst snd]. unfold call at 1. cbn [fst snd].
  destruct (reset (_output_dir (self w)) w) as [[[]|x] w1]; [|reflexivity].
  unfold bind at 1. unfold the_world at 1. unfold read_epoch at 1.
  cbn [fst snd]. destruct (epoch w1); reflexivity.
Qed.

(** When, in the worlds with [I], every body advances the epoch counter by
    one, running the body [n - e] times is running it while the counter is
    below [n]. *)
Lemma for_range_is_while (I : W -> Prop) eval_flag n k :
  body_advances_by_one_from I eval_flag ->
  forall (r : R) e fuel,
    I (fst r) ->
    epoch (fst r) = Returns e ->
    k = Z.to_nat (n - e) ->
    (k < fuel)%nat ->
    let run := for_range k (loop_body eval_flag) r in
    fst run = Returns tt
    /\ I (fst (snd run))
    /\ epoch (fst (snd run)) = Returns (Z.max e n)
    /\ while_epoch_below fuel n (loop_body eval_flag) r
       = (Returns (Some tt), snd run).
Proof.
  intros Hone. induction k as [|k IH]; intros r e fuel HI Hep Hk Hfuel; cbv zeta.
  - destruct fuel as [|fuel]; [lia|]. cbn [for_range while_epoch_below].
    unfold bind, the_world, read_epoch, ret. cbn [fst snd]. rewrite Hep.
    destruct (Z.ltb_spec e n); [lia|].
    split; [reflexivity|]. split; [assumption|].
    split; [f_equal; lia | now destruct r].
  - destruct fuel as [|fuel]; [lia|]. cbn [for_range while_epoch_below].
    destruct (Hone r e HI Hep) as (Hret & HI1 & Hnext).
    unfold bind, the_world, read_epoch. cbn [fst snd]. rewrite Hep.
    destruct (Z.ltb_spec e n); [|lia].
    replace (r.1, r.2) with r by now destruct r.
    destruct (loop_body eval_flag r) as [[[]|x] r1]; [|contradiction].
    cbn [fst snd] in Hnext, HI1.
    destruct (IH r1 (e + 1) fuel HI1 Hnext) as (H1 & H2 & H3 & H4);
      [lia | lia |].
    cbv zeta in H1, H2, H3, H4. rewrite H4. split; [assumption|].
    split; [assumption|]. split; [|reflexivity]. rewrite H3. f_equal. lia.
Qed.

Lemma training_loop_as_specified_entered fuel n eval_flag (w : W)
    (calls0 : list Call) e0 :
  _trainer_reset_called (self w) = true ->
  epoch w = Returns e0 ->
  training_loop_as_specified fuel n eval_flag (w, calls0)
  = bind (while_epoch_below fuel n (loop_body eval_flag))
      (fun fin => match fin with
                  | None => ret None
                  | Some _ => bind (after_loop eval_flag)
                                (fun _ => ret (Some tt))
                  end) (w, calls0).
Proof.
  intros Hcalled Hep. unfold training_loop_as_specified.
  unfold bind at 1. unfold the_world at 1. unfold gets at 1.
  cbn [fst snd]. rewrite Hcalled. cbn [negb].
  unfold bind at 1. unfold ret at 1. reflexivity.
Qed.

Lemma training_loop_as_specified_resets fuel n eval_flag (w w1 : W)
    (calls0 : list Call) :
  _trainer_reset_called (self w) = false ->
  reset (_output_dir (self w)) w = (Returns tt, w1) ->
  training_loop_as_specified fuel n eval_flag (w, calls0)
  = bind (while_epoch_below fuel n (loop_body eval_flag))
      (fun fin => match fin with
                  | None => ret None
                  | Some _ => bind (after_loop eval_flag)
                                (fun _ => ret (Some tt))
                  end) (w1, calls0 ++ [CallReset]).
Proof.
  intros Hcalled Hr. unfold training_loop_as_specified.
  unfold bind at 1. unfold the_world at 1. unfold gets at 1.
  cbn [fst snd]. rewrite Hcalled. cbn [negb].
  unfold bind at 1. unfold bind at 1. unfold the_world at 1.
  unfold gets at 1. cbn [fst snd]. unfold call at 1. cbn [fst snd].
  rewrite Hr. reflexivity.
Qed.

(** From the world in which the epoch is read: the loop of the code and
    the loop of the specification, each followed by the calls after it. *)
Lemma loops_agree_from (I : W -> Prop) fuel n eval_flag (r : R) e0 :
  body_advances_by_one_from I eval_flag ->
  I (fst r) ->
  epoch (fst r) = Returns e0 ->
  (Z.to_nat (n - e0) < fuel)%nat ->
  let code := bind (for_range (Z.to_nat (n - e0)) (loop_body eval_flag))
                (fun _ => after_loop eval_flag) r in
  bind (while_epoch_below fuel n (loop_body eval_flag))
    (fun fin => match fin with
                | None => ret None
                | Some _ => bind (after_loop eval_flag)
                              (fun _ => ret (Some tt))
                end) r
  = (as_loop_outcome (fst code), snd code).
Proof.
  intros Hone HI Hep Hfuel. cbv zeta.
  destruct (for_range_is_while I eval_flag n (Z.to_nat (n - e0)) Hone r e0 fuel
              HI Hep eq_refl Hfuel) as (H1 & _ & _ & H4).
  cbv zeta in H1, H4.
  destruct (for_range (Z.to_nat (n - e0)) (loop_body eval_flag) r)
    as [o r1] eqn:Hfor. cbn [fst snd] in H1, H4. subst o.
  unfold bind. rewrite H4, Hfor. unfold ret.
  destruct (after_loop eval_flag r1) as [[[]|x] r2]; reflexivity.
Qed.

Lemma training_loop_as_specified_agrees (I : W -> Prop) fuel n eval_flag
    (w : W) e0 :
  (_trainer_reset_called (self w) = false ->
   is_returns (fst (reset (_output_dir (self w)) w))) ->
  epoch (world_at_loop_entry w) = Returns e0 ->
  body_advances_by_one_from I eval_flag ->
  I (world_at_loop_entry w) ->
  (Z.to_nat (n - e0) < fuel)%nat ->
  training_loop_as_specified fuel n eval_flag (w, [])
  = (as_loop_outcome (fst (training_loop n eval_flag (w, []))),
     snd (training_loop n eval_flag (w, []))).
Proof.
  intros Hreset Hep Hone HI Hfuel. unfold world_at_loop_entry in Hep, HI.
  destruct (_trainer_reset_called (self w)) eqn:Hcalled.
  - rewrite (training_loop_as_specified_entered fuel n eval_flag w [] e0)
      by assumption.
    rewrite training_loop_entered, Hep by assumption.
    now apply (loops_agree_from I).
  - specialize (Hreset eq_refl).
    destruct (reset (_output_dir (self w)) w) as [[[]|x] w1] eqn:Hr;
      [|contradiction].
    cbn [snd] in Hep, HI.
    rewrite (training_loop_as_specified_resets fuel n eval_flag w w1 [])
      by assumption.
    rewrite training_loop_resets, Hr, Hep by assumption.
    now apply (loops_agree_from I).
Qed.


(** ** The completion marker *)

Lemma reset_no_marker d od (w : W) :
  no_marker d w -> no_marker d (snd (reset od w)).
Proof.
  intros [Ha Hf]. unfold reset, bind, gets, modify, ret, raise.
  destruct od as [d'|]; cbn.
  - now split.
  - destruct (_output_dir (self w)); cbn; now split.
Qed.

Lemma dump_trajectories_no_marker d force (w : W) :
  no_marker d w -> no_marker d (snd (dump_trajectories force w)).
Proof.
  intros [Ha Hf]. split.
  - destruct (dump_trajectories_frame force w) as (_ & _ & _ & H & _).
    cbv zeta in H. congruence.
  - destruct (dump_trajectories_files force w (marker_path d))
      as [H|(d' & e & _ & H)]; [congruence|].
    symmetry in H. now apply shard_path_not_marker in H.
Qed.

Lemma indicate_done_no_marker d (w : W) :
  no_marker d w -> no_marker d (snd (indicate_done w)).
Proof. intros [Ha Hf]. rewrite indicate_done_sync by assumption. now split. Qed.

(** C8. Outside async mode [indicate_done] returns and changes nothing.  In
    async mode, with an output directory, it returns having written the
    empty file [__done__] in that directory, and nothing else.  So the
    marker is written exactly when async mode is on.  And when async mode is
    off and stays off, a whole [training_loop] whose hooks bring no file to
    the marker path leaves no file there, however the loop ends. *)
Theorem C8_indicate_done_marker :
  (forall w : W,
     _async_mode (self w) = false -> indicate_done w = (Returns tt, w))
  /\ (forall (w : W) d,
        _async_mode (self w) = true ->
        _output_dir (self w) = Some d ->
        exists w',
          indicate_done w = (Returns tt, w')
          /\ marker_path d = path_join d "__done__"
          /\ files (gfile w') = <[marker_path d := Raw ""]> (files (gfile w))
          /\ oplog (gfile w') = oplog (gfile w) ++ [OpWrite (marker_path d) (Raw "")]
          /\ dirs (gfile w') = dirs (gfile w)
          /\ self w' = self w)
  /\ (forall (w : W) d,
        _output_dir (self w) = Some d ->
        (In (OpWrite (marker_path d) (Raw ""))
            (drop (length (oplog (gfile w)))
                  (oplog (gfile (snd (indicate_done w)))))
         <-> _async_mode (self w) = true))
  /\ (forall d n eval_flag (w : W),
        hooks_preserve (no_marker d) ->
        no_marker d w ->
        no_marker d (fst (snd (training_loop n eval_flag (w, []))))).
Proof.
  split; [|split; [|split]].
  - apply indicate_done_sync.
  - intros w d Ha Ho. rewrite (indicate_done_async w d) by assumption.
    eexists. split; [reflexivity|]. cbn. repeat split.
  - intros w d Ho. destruct (_async_mode (self w)) eqn:Ha.
    + rewrite (indicate_done_async w d) by assumption. cbn.
      rewrite drop_app_length. split; [reflexivity|]. intros _. now left.
    + rewrite indicate_done_sync by assumption. cbn.
      rewrite drop_all. split; [intros [] | discriminate].
  - intros d n eval_flag w Hhooks Hw.
    apply (training_loop_keeps_world (no_marker d)); try assumption.
    + intros od w0. apply reset_no_marker.
    + intros force w0. apply dump_trajectories_no_marker.
    + apply indicate_done_no_marker.
Qed.

(** ** The order of the calls *)

(** C2, amended. [training_loop] reads the epoch once, on entering the
    loop, and runs the body (train an epoch, maybe save, dump unforced)
    [n_epochs] minus that epoch times, never a negative number of times;
    then it calls save, the forced dump, the evaluation exactly when
    [evaluate] is set, the flush of the summaries and the completion signal,
    in that order.  The calls made are always a prefix of that sequence and
    all of it when the loop returns, which it does whenever the hooks and
    its own methods return.  When each body advances the epoch counter by
    exactly one (in the worlds of some property [I] that the body keeps and
    that holds when the epoch is read), the bodies run are those of a loop
    that runs while the counter is below [n_epochs], the counter is
    [n_epochs] when the loop is left (if it was not above it already), and
    the whole [training_loop] is the loop of the specification. *)
Theorem C2_training_loop_order (n_epochs : Z) (eval_flag : bool) (w : W) (e0 : Z) :
  (_trainer_reset_called (self w) = false ->
   is_returns (fst (reset (_output_dir (self w)) w))) ->
  epoch (world_at_loop_entry w) = Returns e0 ->
  let run := training_loop n_epochs eval_flag (w, []) in
  let iterations := Z.to_nat (n_epochs - e0) in
  let expected :=
    (if _trainer_reset_called (self w) then [] else [CallReset])
    ++ concat (replicate iterations
                 [CallTrainEpoch eval_flag; CallMaybeSave;
                  CallDumpTrajectories false])
    ++ [CallSave; CallDumpTrajectories true]
    ++ (if eval_flag then [CallEvaluate] else [])
    ++ [CallFlushSummaries; CallIndicateDone] in
  snd (snd run) `prefix_of` expected
  /\ (is_returns (fst run) -> snd (snd run) = expected)
  /\ (forall I : W -> Prop,
        I w -> hooks_preserve I -> hooks_return I ->
        (forall od w, I w ->
           is_returns (fst (reset od w)) /\ I (snd (reset od w))) ->
        (forall force w, I w ->
           is_returns (fst (dump_trajectories force w))
           /\ I (snd (dump_trajectories force w))) ->
        (forall w, I w ->
           is_returns (fst (indicate_done w)) /\ I (snd (indicate_done w))) ->
        is_returns (fst run))
  /\ (forall I : W -> Prop,
        body_advances_by_one_from I eval_flag ->
        (forall r : W * list Call,
           I (fst r) ->
           epoch (fst r) = Returns e0 ->
           let loop := for_range iterations (loop_body eval_flag) r in
           fst loop = Returns tt
           /\ I (fst (snd loop))
           /\ epoch (fst (snd loop)) = Returns (Z.max e0 n_epochs)
           /\ forall fuel, (iterations < fuel)%nat ->
                while_epoch_below fuel n_epochs (loop_body eval_flag) r
                = (Returns (Some tt), snd loop))
        /\ (I (world_at_loop_entry w) ->
            forall fuel, (iterations < fuel)%nat ->
              training_loop_as_specified fuel n_epochs eval_flag (w, [])
              = (as_loop_outcome (fst run), snd run))).
Proof.
  intros Hreset Hep. cbv zeta.
  destruct (training_loop_calls n_epochs eval_flag w [] e0 Hreset Hep)
    as (l & E & P & F).
  cbv zeta in E, P, F. cbn [app] in E. rewrite E.
  assert (Hexp : expected_calls (negb (_trainer_reset_called (self w)))
                   (Z.to_nat (n_epochs - e0)) eval_flag
                 = (if _trainer_reset_called (self w) then [] else [CallReset])
                   ++ concat (replicate (Z.to_nat (n_epochs - e0))
                                [CallTrainEpoch eval_flag; CallMaybeSave;
                                 CallDumpTrajectories false])
                   ++ [CallSave; CallDumpTrajectories true]
                   ++ (if eval_flag then [CallEvaluate] else [])
                   ++ [CallFlushSummaries; CallIndicateDone]).
  { unfold expected_calls, final_calls, body_calls.
    destruct (_trainer_reset_called (self w)); reflexivity. }
  rewrite <- Hexp. split; [assumption|]. split; [assumption|]. split.
  - intros I HI Hp Hr H1 H2 H3.
    apply (training_loop_returns_from I n_epochs eval_flag Hp Hr H1 H2 H3 (w, [])).
    exact HI.
  - intros I Hone. split.
    + intros r HI Hr. cbv zeta.
      destruct (for_range_is_while I eval_flag n_epochs
                  (Z.to_nat (n_epochs - e0)) Hone r e0
                  (S (Z.to_nat (n_epochs - e0))) HI Hr eq_refl)
        as (H1 & H2 & H3 & _); [lia|].
      split; [assumption|]. split; [assumption|]. split; [assumption|].
      intros fuel Hfuel.
      now destruct (for_range_is_while I eval_flag n_epochs
                      (Z.to_nat (n_epochs - e0)) Hone r e0 fuel HI Hr eq_refl
                      Hfuel) as (_ & _ & _ & H4).
    + intros HI fuel Hfuel.
      now apply (training_loop_as_specified_agrees I fuel n_epochs eval_flag
                   w e0).
Qed.


(** On [BaseTrainer] itself, whose hooks are not implemented, the loop
    raises as soon as it reads the epoch, having called no hook. *)
Lemma training_loop_abstract n eval_flag (w : W) :
  _trainer_reset_called (self w) = true ->
  training_loop (TrainerHooks0 := AbstractHooks St T U) n eval_flag (w, [])
  = (Raises NotImplementedError, (w, [])).
Proof.
  intros Hcalled. unfold training_loop, bind, the_world, gets, read_epoch, ret.
  cbn. rewrite Hcalled. reflexivity.
Qed.


(** * Further properties of the class *)

(** ** Construction and binding *)

(** X1. The constructor raises [AttributeError] when it is given no
    training environment.  Given one, it returns a trainer bound to it,
    whose reference spaces are those of the environment, whose buffer is
    empty, which is due for an environment reset and has not been reset
    itself; the other arguments are stored as given. *)
Theorem X1_constructor :
  (forall ee od dd mc am,
     __init__ (St := St) (Action := Action) (Observation := Observation)
       None ee od dd mc am = Raises AttributeError)
  /\ (forall (env : Env St) ee od dd mc am,
        exists t : Trainer,
          __init__ (Some env) ee od dd mc am = Returns t
          /\ train_env t = Some env
          /\ bound_consistent t
          /\ _action_space t = Some (action_space env)
          /\ _observation_space t = Some (observation_space env)
          /\ _should_reset_train_env t = true
          /\ _trajectory_buffer t = []
          /\ _trainer_reset_called t = false
          /\ eval_env t = ee
          /\ _output_dir t = od
          /\ trajectory_dump_dir t = dd
          /\ _trajectory_dump_min_count_per_shard t = mc
          /\ async_mode t = am).
Proof.
  split.
  - intros. reflexivity.
  - intros env ee od dd mc am. eexists. split; [reflexivity|]. cbn.
    split; [reflexivity|]. split; [|repeat split].
    exists env, (action_space env), (observation_space env). cbn.
    repeat split.
Qed.

Lemma set_train_env_raises (new : option (Env St)) (t t' : Trainer) e :
  set_train_env new t = (Raises e, t') ->
  t' = t /\ (e = AssertionError \/ e = AttributeError).
Proof.
  unfold set_train_env, _assert_env_compatible, assert_same_space, py_assert.
  unfold bind, gets, modify, ret, raise.
  destruct (_train_env t) as [cur|]; destruct new as [env|];
    cbn -[same_shape same_dtype];
    try (intros [= <- <-]; auto; fail); try discriminate.
  destruct (_observation_space t) as [o|];
    cbn -[same_shape same_dtype]; [|intros [= <- <-]; auto].
  destruct (same_shape (observation_space env) o);
    cbn -[same_shape same_dtype]; [|intros [= <- <-]; auto].
  destruct (same_dtype (observation_space env) o);
    cbn -[same_shape same_dtype]; [|intros [= <- <-]; auto].
  destruct (_action_space t) as [a|];
    cbn -[same_shape same_dtype]; [|intros [= <- <-]; auto].
  destruct (same_shape (action_space env) a);
    cbn -[same_shape same_dtype]; [|intros [= <- <-]; auto].
  destruct (same_dtype (action_space env) a);
    cbn -[same_shape same_dtype]; [discriminate | intros [= <- <-]; auto].
Qed.

Lemma set_train_env_consistent (new : option (Env St)) (t : Trainer) :
  bound_consistent t ->
  bound_consistent (snd (set_train_env new t))
  /\ _action_space (snd (set_train_env new t)) = _action_space t
  /\ _observation_space (snd (set_train_env new t)) = _observation_space t.
Proof.
  intros (cur & a & o & Hcur & Ha & Ho & Hsa & Hso).
  assert (Hself : bound_consistent t) by (exists cur, a, o; auto).
  destruct new as [env|].
  - rewrite (set_train_env_next t cur env a o) by assumption.
    destruct (same_shape (observation_space env) o) eqn:E1;
      [|cbn; auto].
    destruct (same_dtype (observation_space env) o) eqn:E2;
      [|cbn; auto].
    destruct (same_shape (action_space env) a) eqn:E3;
      [|cbn; auto].
    destruct (same_dtype (action_space env) a) eqn:E4;
      [|cbn; auto].
    cbn. split; [|auto].
    unfold same_shape, same_dtype in *.
    apply bool_decide_eq_true_1 in E1, E2, E3, E4.
    exists env, a, o. cbn. unfold same_space. auto 10.
  - destruct (set_train_env None t) as [[[]|e] t'] eqn:E.
    + exfalso. revert E.
      unfold set_train_env, _assert_env_compatible, bind, gets, raise.
      rewrite Hcur. discriminate.
    + apply set_train_env_raises in E as [-> _]. auto.
Qed.

(** X2. Once the constructor has returned, no assignment to [train_env],
    accepted or refused, moves the reference spaces, and the environment
    bound at any time has the shapes and element types of the reference. *)
Theorem X2_binding_invariant (te ee : option (Env St)) od dd mc am
    (t t' : Trainer) :
  __init__ te ee od dd mc am = Returns t ->
  rebinds t t' ->
  bound_consistent t'
  /\ _action_space t' = _action_space t
  /\ _observation_space t' = _observation_space t.
Proof.
  intros Hinit Hrun.
  assert (H0 : bound_consistent t).
  { destruct te as [env|]; [|discriminate].
    injection Hinit as <-. exists env, (action_space env), (observation_space env).
    cbn. unfold same_space. auto 10. }
  clear Hinit. induction Hrun as [t|t t1 new Hrun IH].
  - auto.
  - destruct (IH H0) as (H1 & H2 & H3).
    destruct (set_train_env_consistent new t1 H1) as (G1 & G2 & G3).
    split; [assumption|]. split; congruence.
Qed.

(** X3. An assignment to [train_env] that raises leaves the trainer exactly
    as it was, and raises either the [AssertionError] of the compatibility
    check or the [AttributeError] of reading a space from [None]; assigning
    [None] always raises. *)
Theorem X3_refused_binding_changes_nothing :
  (forall (new : option (Env St)) (t t' : Trainer) e,
     set_train_env new t = (Raises e, t') ->
     t' = t /\ (e = AssertionError \/ e = AttributeError))
  /\ (forall t : Trainer, set_train_env None t = (Raises AttributeError, t)).
Proof.
  split; [apply set_train_env_raises|].
  intros t. unfold set_train_env, _assert_env_compatible, bind, gets, raise.
  destruct (_train_env t); reflexivity.
Qed.

(** ** [reset] again *)

(** X4. A [reset] that has returned can be repeated without argument: the
    second call returns, keeps the output directory and the files, and
    creates no directory that was not there.  An explicit argument wins
    over the configured directory. *)
Theorem X4_reset_again (w w1 : W) (od : option string) :
  reset od w = (Returns tt, w1) ->
  exists d w2,
    _output_dir (self w1) = Some d
    /\ (forall d', od = Some d' -> d = d')
    /\ reset None w1 = (Returns tt, w2)
    /\ _output_dir (self w2) = Some d
    /\ dirs (gfile w2) = dirs (gfile w1)
    /\ files (gfile w2) = files (gfile w1)
    /\ self w2 = self w1.
Proof.
  unfold reset, bind, gets, modify, ret, raise.
  destruct od as [d|]; cbn.
  - intros [= <-]. exists d. eexists. cbn. repeat split.
    + now intros d' [= <-].
    + set_solver.
  - destruct (_output_dir (self w)) as [d|] eqn:Ho; cbn; [|discriminate].
    intros [= <-]. exists d. eexists. cbn. rewrite Ho. cbn. repeat split.
    + discriminate.
    + exact Ho.
    + cbn. set_solver.
Qed.


(** ** The loop again *)

Lemma body_calls_no_reset k eval_flag :
  ~ In CallReset (concat (replicate k (body_calls eval_flag))
                  ++ final_calls eval_flag).
Proof.
  intros Hin. apply in_app_or in Hin as [Hin|Hin].
  - induction k as [|k IH]; cbn in Hin; [contradiction|].
    destruct Hin as [H|[H|[H|H]]]; try discriminate. now apply IH.
  - unfold final_calls in Hin. destruct eval_flag; cbn in Hin;
      repeat (destruct Hin as [Hin|Hin]; [discriminate|]); contradiction.
Qed.

Lemma prefix_In {A} (l1 l2 : list A) x : l1 `prefix_of` l2 -> In x l1 -> In x l2.
Proof. intros [k ->] Hin. apply in_or_app. now left. Qed.

(** X5. A [reset] that fails for want of an output directory has all the
    same marked the trainer as reset.  A [training_loop] that follows does
    not reset: it never calls [reset], creates no output directory, and the
    output directory is still unset when it reads the epoch. *)
Theorem X5_failed_reset_is_not_retried (w w' : W) e :
  reset None w = (Raises e, w') ->
  e = AssertionError
  /\ _trainer_reset_called (self w') = true
  /\ _output_dir (self w') = None
  /\ world_at_loop_entry w' = w'
  /\ forall n eval_flag,
       ~ In CallReset (snd (snd (training_loop n eval_flag (w', [])))).
Proof.
  intros Hr.
  assert (Hw : e = AssertionError
               /\ w' = on_self (set_trainer_reset_called true) w
               /\ _output_dir (self w) = None).
  { revert Hr. unfold reset, bind, gets, modify, ret, raise. cbn.
    destruct (_output_dir (self w)) eqn:Ho; cbn; [discriminate|].
    intros [= <- <-]. auto. }
  destruct Hw as (-> & -> & Ho). clear Hr.
  split; [reflexivity|]. split; [reflexivity|].
  split; [exact Ho|]. split; [reflexivity|].
  intros n eval_flag. rewrite training_loop_entered by reflexivity.
  match goal with |- context [epoch ?x] => destruct (epoch x) as [e0|x'] end;
    [|intros []].
  match goal with |- context [bind ?m ?k ?r] =>
    destruct (loop_and_after_makes_calls (Z.to_nat (n - e0)) eval_flag r)
      as (l & E & P & _) end.
  rewrite E. cbn [snd app]. intros Hin.
  apply (body_calls_no_reset (Z.to_nat (n - e0)) eval_flag).
  eapply prefix_In; eauto.
Qed.

(** X6. A [training_loop] on a trainer that was never reset calls [reset]
    before anything else, with the configured output directory.  Without
    one the loop raises the [AssertionError] of [reset] at once: no hook is
    called and the file system is untouched.  With one, the directory
    exists and the trainer is marked as reset when the epoch is read. *)
Theorem X6_implicit_reset (n : Z) (eval_flag : bool) (w : W) :
  _trainer_reset_called (self w) = false ->
  (exists l, snd (snd (training_loop n eval_flag (w, []))) = CallReset :: l)
  /\ (_output_dir (self w) = None ->
      exists w',
        training_loop n eval_flag (w, [])
        = (Raises AssertionError, (w', [CallReset]))
        /\ gfile w' = gfile w /\ sub w' = sub w)
  /\ (forall d, _output_dir (self w) = Some d ->
        d ∈ dirs (gfile (world_at_loop_entry w))
        /\ _trainer_reset_called (self (world_at_loop_entry w)) = true
        /\ _output_dir (self (world_at_loop_entry w)) = Some d
        /\ files (gfile (world_at_loop_entry w)) = files (gfile w)).
Proof.
  intros Hcalled. split; [|split].
  - rewrite training_loop_resets by assumption.
    destruct (reset (_output_dir (self w)) w) as [[[]|x] w1];
      [|exists []; reflexivity].
    destruct (epoch w1) as [e0|x]; [|exists []; reflexivity].
    destruct (loop_and_after_makes_calls (Z.to_nat (n - e0)) eval_flag
                (w1, [CallReset])) as (l & E & _).
    exists l. exact E.
  - intros Ho. rewrite training_loop_resets by assumption.
    unfold reset, bind, gets, modify, ret, raise. rewrite Ho. cbn.
    rewrite Ho. eexists. split; [reflexivity|]. split; reflexivity.
  - intros d Ho. unfold world_at_loop_entry. rewrite Hcalled, Ho.
    unfold reset, bind, gets, modify, ret, raise. cbn.
    repeat split. apply elem_of_union_l, elem_of_singleton. reflexivity.
Qed.

(** X7. When the epoch read on entering the loop is already [n_epochs] or
    more, no epoch is trained and nothing is dumped unforced: the loop goes
    straight to save, the forced dump, the evaluation if asked for, the
    flush and the completion signal. *)
Theorem X7_no_epoch_left (n : Z) (eval_flag : bool) (w : W) (e0 : Z) :
  _trainer_reset_called (self w) = true ->
  epoch w = Returns e0 ->
  n <= e0 ->
  let run := training_loop n eval_flag (w, []) in
  snd (snd run) `prefix_of` final_calls eval_flag
  /\ (is_returns (fst run) -> snd (snd run) = final_calls eval_flag)
  /\ (forall b, ~ In (CallTrainEpoch b) (snd (snd run)))
  /\ ~ In (CallDumpTrajectories false) (snd (snd run)).
Proof.
  intros Hcalled Hep Hle. cbv zeta.
  rewrite training_loop_entered, Hep by assumption.
  replace (Z.to_nat (n - e0)) with 0%nat by lia.
  destruct (loop_and_after_makes_calls 0 eval_flag (w, [])) as (l & E & P & F).
  cbn [replicate concat app snd] in E, P, F. rewrite E.
  split; [assumption|]. split; [assumption|].
  assert (Hno : forall c, In c l -> In c (final_calls eval_flag))
    by (intros c; now apply prefix_In).
  split.
  - intros b Hin. apply Hno in Hin. unfold final_calls in Hin.
    destruct eval_flag; cbn in Hin;
      repeat (destruct Hin as [Hin|Hin]; [discriminate|]); contradiction.
  - intros Hin. apply Hno in Hin. unfold final_calls in Hin.
    destruct eval_flag; cbn in Hin;
      repeat (destruct Hin as [Hin|Hin]; [discriminate|]); contradiction.
Qed.

(** X8. The loop does not catch what a hook raises.  When the first
    [train_epoch] raises, the loop raises the same exception, having called
    nothing else: no save, no dump, no completion signal; the world is the
    one the hook left. *)
Theorem X8_raising_hook_ends_the_loop
    (n : Z) (eval_flag : bool) (w w1 : W) (e0 : Z) x :
  _trainer_reset_called (self w) = true ->
  epoch w = Returns e0 ->
  e0 < n ->
  train_epoch eval_flag w = (Raises x, w1) ->
  training_loop n eval_flag (w, [])
  = (Raises x, (w1, [CallTrainEpoch eval_flag])).
Proof.
  intros Hcalled Hep Hlt Hraise.
  rewrite training_loop_entered, Hep by assumption.
  destruct (Z.to_nat (n - e0)) as [|k] eqn:Hk; [lia|].
  cbn [for_range]. unfold loop_body. unfold bind, call. cbn [fst snd].
  rewrite Hraise. reflexivity.
Qed.

(** X9. [BaseTrainer] cannot run by itself: with the hooks as the class
    defines them the loop never returns.  It raises the [AssertionError] of
    [reset] or the [NotImplementedError] of the epoch property, having
    called at most [reset], and no file is written. *)
Theorem X9_abstract_trainer_cannot_loop (n : Z) (eval_flag : bool) (w : W) :
  exists x w' l,
    training_loop (TrainerHooks0 := AbstractHooks St T U) n eval_flag (w, [])
    = (Raises x, (w', l))
    /\ (x = AssertionError \/ x = NotImplementedError)
    /\ (l = [] \/ l = [CallReset])
    /\ files (gfile w') = files (gfile w)
    /\ sub w' = sub w.
Proof.
  destruct (_trainer_reset_called (self w)) eqn:Hcalled.
  - rewrite training_loop_abstract by assumption.
    exists NotImplementedError, w, []. auto 10.
  - unfold training_loop, bind, the_world, call, gets, read_epoch, ret.
    unfold reset, bind, gets, modify, ret, raise. cbn. rewrite Hcalled. cbn.
    destruct (_output_dir (self w)) eqn:Ho; cbn; rewrite ?Ho; cbn;
      eexists _, _, _; (split; [reflexivity|]); cbn; auto 10.
Qed.


(** ** Shard paths *)

Lemma str_of_int_inj (a b : Z) : str_of_int a = str_of_int b -> a = b.
Proof.
  unfold str_of_int. intros Heq.
  assert (Hnn : forall z, Z.to_int z <> Decimal.Pos Decimal.Nil
                          /\ Z.to_int z <> Decimal.Neg Decimal.Nil).
  { intros [|p|p]; cbn; split; try discriminate;
      intros [= H]; now apply DecimalPos.Unsigned.to_uint_nonnil in H. }
  destruct (Hnn a) as [Ha1 Ha2]. destruct (Hnn b) as [Hb1 Hb2].
  pose proof (NilZero.isi _ Ha1 Ha2) as Ia.
  pose proof (NilZero.isi _ Hb1 Hb2) as Ib.
  rewrite Heq, Ib in Ia. injection Ia as Ia.
  symmetry. now apply DecimalZ.to_int_inj.
Qed.

Lemma format_pkl_relative (e : Z) : startswith_sep (format_pkl e) = false.
Proof.
  unfold format_pkl, str_of_int.
  destruct e as [|p|p]; cbn; try reflexivity;
    destruct (Pos.to_uint p); reflexivity.
Qed.

Lemma string_app_inv_head (p a b : string) : p +:+ a = p +:+ b -> a = b.
Proof. induction p as [|c p IH]; cbn; [auto | intros [= H]; auto]. Qed.

Lemma string_app_length (a b : string) :
  String.length (a +:+ b) = (String.length a + String.length b)%nat.
Proof. induction a as [|c a IH]; simpl; [reflexivity | now rewrite IH]. Qed.

Lemma string_app_inv_tail (a b s : string) : a +:+ s = b +:+ s -> a = b.
Proof.
  revert b. induction a as [|c a IH]; intros [|c' b] Heq.
  - reflexivity.
  - apply (f_equal String.length) in Heq.
    rewrite (string_app_length "" s), (string_app_length (String c' b) s) in Heq.
    simpl in Heq. lia.
  - apply (f_equal String.length) in Heq.
    rewrite (string_app_length "" s), (string_app_length (String c a) s) in Heq.
    simpl in Heq. lia.
  - change (String c (a +:+ s) = String c' (b +:+ s)) in Heq.
    injection Heq as -> Heq. f_equal. now apply IH.
Qed.

Lemma shard_path_inj (d : string) (e1 e2 : Z) :
  shard_path d e1 = shard_path d e2 -> e1 = e2.
Proof.
  unfold shard_path, path_join. rewrite !format_pkl_relative.
  intros Heq. apply str_of_int_inj.
  apply (string_app_inv_tail _ _ ".pkl"). fold (format_pkl e1) (format_pkl e2).
  destruct (is_empty_string d || endswith_sep d).
  - now apply string_app_inv_head in Heq.
  - apply string_app_inv_head in Heq. now apply (string_app_inv_head "/").
Qed.

(** ** [dump_trajectories] again *)

Lemma dump_trajectories_changed_path force (w : W) p :
  files (gfile (snd (dump_trajectories force w))) !! p <> files (gfile w) !! p ->
  exists d e,
    trajectory_dump_dir (self w) = Some d
    /\ epoch (after_harvest force d w) = Returns e
    /\ p = shard_path d e.
Proof.
  intros Hne.
  destruct (trajectory_dump_dir (self w)) as [d|] eqn:Hd.
  2:{ rewrite dump_trajectories_no_dir in Hne by assumption. now destruct Hne. }
  destruct (_train_env (self w)) as [env|] eqn:He.
  2:{ rewrite (dump_trajectories_no_env _ _ d) in Hne by assumption.
      now destruct Hne. }
  rewrite (dump_trajectories_eq _ _ d env) in Hne by assumption.
  cbv zeta in Hne. destruct (after_harvest_frame force d w) as (Hg & _).
  destruct (writes_shard force d w);
    [|cbn -[after_harvest] in Hne; rewrite Hg in Hne; now destruct Hne].
  destruct (epoch (after_harvest force d w)) as [e|x] eqn:Hep;
    [|cbn -[after_harvest] in Hne; rewrite Hg in Hne; now destruct Hne].
  exists d, e. split; [reflexivity|]. split; [assumption|].
  destruct (decide (p = shard_path d e)) as [->|Hp]; [reflexivity|].
  exfalso. apply Hne.
  destruct (files (gfile w) !! shard_path d e) as [[old|raw]|];
    cbn -[after_harvest]; rewrite Hg; cbn;
    rewrite ?lookup_insert_ne by congruence; reflexivity.
Qed.

Lemma dump_trajectories_other_path force (w : W) p :
  (forall d e,
     trajectory_dump_dir (self w) = Some d ->
     epoch (after_harvest force d w) = Returns e ->
     p <> shard_path d e) ->
  files (gfile (snd (dump_trajectories force w))) !! p = files (gfile w) !! p.
Proof.
  intros Hp.
  destruct (trajectory_dump_dir (self w)) as [d|] eqn:Hd.
  2:{ now rewrite dump_trajectories_no_dir by assumption. }
  destruct (_train_env (self w)) as [env|] eqn:He.
  2:{ now rewrite (dump_trajectories_no_env _ _ d) by assumption. }
  rewrite (dump_trajectories_eq _ _ d env) by assumption. cbv zeta.
  destruct (after_harvest_frame force d w) as (Hg & _).
  destruct (writes_shard force d w);
    [|cbn -[after_harvest]; now rewrite Hg].
  destruct (epoch (after_harvest force d w)) as [e|x] eqn:Hep;
    [|cbn -[after_harvest]; now rewrite Hg].
  specialize (Hp d e eq_refl Hep).
  destruct (files (gfile w) !! shard_path d e) as [[old|raw]|];
    cbn -[after_harvest]; rewrite Hg; cbn;
    rewrite ?lookup_insert_ne by congruence; reflexivity.
Qed.

Lemma dump_trajectories_keeps_files force (w : W) p :
  is_Some (files (gfile w) !! p) ->
  is_Some (files (gfile (snd (dump_trajectories force w))) !! p).
Proof.
  intros Hp.
  destruct (trajectory_dump_dir (self w)) as [d|] eqn:Hd.
  2:{ now rewrite dump_trajectories_no_dir by assumption. }
  destruct (_train_env (self w)) as [env|] eqn:He.
  2:{ now rewrite (dump_trajectories_no_env _ _ d) by assumption. }
  rewrite (dump_trajectories_eq _ _ d env) by assumption. cbv zeta.
  destruct (after_harvest_frame force d w) as (Hg & _).
  destruct (writes_shard force d w);
    [|cbn -[after_harvest]; now rewrite Hg].
  destruct (epoch (after_harvest force d w)) as [e|x] eqn:Hep;
    [|cbn -[after_harvest]; now rewrite Hg].
  destruct (files (gfile w) !! shard_path d e) as [[old|raw]|] eqn:Ef;
    cbn -[after_harvest]; rewrite Hg; cbn; try assumption;
    (destruct (decide (shard_path d e = p)) as [<-|Hne];
     [rewrite lookup_insert_eq; eauto
     |rewrite lookup_insert_ne by assumption; assumption]).
Qed.

Lemma dump_trajectories_dirs force (w : W) :
  dirs (gfile w) ⊆ dirs (gfile (snd (dump_trajectories force w)))
  /\ forall d, trajectory_dump_dir (self w) = Some d ->
               d ∈ dirs (gfile (snd (dump_trajectories force w))).
Proof.
  destruct (trajectory_dump_dir (self w)) as [d|] eqn:Hd.
  2:{ rewrite dump_trajectories_no_dir by assumption. split; [done|discriminate]. }
  assert (Hin : forall fs : FileSystem T,
             dirs (gfile w) ⊆ dirs (fs_makedirs d (gfile w))
             /\ d ∈ dirs (fs_makedirs d (gfile w))).
  { intros _. cbn. split; [apply union_subseteq_r|].
    apply elem_of_union_l, elem_of_singleton. reflexivity. }
  destruct (Hin (gfile w)) as [H1 H2].
  assert (Hall : dirs (gfile (snd (dump_trajectories force w)))
                 = dirs (fs_makedirs d (gfile w))).
  { destruct (_train_env (self w)) as [env|] eqn:He.
    2:{ now rewrite (dump_trajectories_no_env _ _ d) by assumption. }
    rewrite (dump_trajectories_eq _ _ d env) by assumption. cbv zeta.
    destruct (after_harvest_frame force d w) as (Hg & _).
    destruct (writes_shard force d w);
      [|cbn -[after_harvest]; now rewrite Hg].
    destruct (epoch (after_harvest force d w)) as [e|x];
      [|cbn -[after_harvest]; now rewrite Hg].
    destruct (files (gfile w) !! shard_path d e) as [[old|raw]|];
      cbn -[after_harvest]; now rewrite Hg. }
  rewrite Hall. split; [assumption|]. now intros d' [= <-].
Qed.

(** X10. Whatever its outcome, [dump_trajectories] changes nothing of the
    trainer but the buffer and the store of the environment: the dump
    directory, the minimum count, the async flag, the output directory, the
    reset mark and the attributes of the subclass (the epoch among them) are
    as before. *)
Theorem X10_dump_leaves_configuration (force : bool) (w : W) :
  let w' := snd (dump_trajectories force w) in
  sub w' = sub w
  /\ trajectory_dump_dir (self w') = trajectory_dump_dir (self w)
  /\ _trajectory_dump_min_count_per_shard (self w')
     = _trajectory_dump_min_count_per_shard (self w)
  /\ _async_mode (self w') = _async_mode (self w)
  /\ _output_dir (self w') = _output_dir (self w)
  /\ _trainer_reset_called (self w') = _trainer_reset_called (self w).
Proof. apply dump_trajectories_frame. Qed.

(** X11. [dump_trajectories] never removes a file or a directory, and
    whatever its outcome the only path whose file it can change is the
    shard path of the epoch it read, under the configured dump directory;
    that directory exists after the call. *)
Theorem X11_dump_writes_one_path (force : bool) (w : W) :
  let w' := snd (dump_trajectories force w) in
  (forall p, is_Some (files (gfile w) !! p) -> is_Some (files (gfile w') !! p))
  /\ (forall p, files (gfile w') !! p <> files (gfile w) !! p ->
        exists d e,
          trajectory_dump_dir (self w) = Some d
          /\ epoch (after_harvest force d w) = Returns e
          /\ p = shard_path d e)
  /\ dirs (gfile w) ⊆ dirs (gfile w')
  /\ (forall d, trajectory_dump_dir (self w) = Some d -> d ∈ dirs (gfile w')).
Proof.
  cbv zeta. split; [|split].
  - intros p. apply dump_trajectories_keeps_files.
  - intros p. apply dump_trajectories_changed_path.
  - apply dump_trajectories_dirs.
Qed.

(** X12. Within a dump directory each epoch has its own shard path, so a
    dump at one epoch leaves the shard of every other epoch as it was. *)
Theorem X12_one_shard_per_epoch (d : string) :
  (forall e1 e2, shard_path d e1 = shard_path d e2 -> e1 = e2)
  /\ (forall force (w : W) e e',
        trajectory_dump_dir (self w) = Some d ->
        epoch (after_harvest force d w) = Returns e ->
        e' <> e ->
        files (gfile (snd (dump_trajectories force w))) !! shard_path d e'
        = files (gfile w) !! shard_path d e').
Proof.
  split; [apply shard_path_inj|].
  intros force w e e' Hd Hep Hne.
  apply dump_trajectories_other_path. intros d0 e0 Hd0 Hep0 Hp.
  rewrite Hd in Hd0. injection Hd0 as <-. rewrite Hep in Hep0.
  injection Hep0 as <-. apply shard_path_inj in Hp. contradiction.
Qed.


Lemma written_paths_read (ops : list (FsOp T)) p :
  written_paths (ops ++ [OpRead p]) = written_paths ops.
Proof. unfold written_paths. rewrite omap_app. cbn. apply app_nil_r. Qed.

Lemma after_harvest_env force d (w : W) env :
  _train_env (self w) = Some env ->
  _train_env (self (after_harvest force d w))
  = Some {| action_space := action_space env;
            observation_space := observation_space env;
            trajectories :=
              clear_completed_trajectories (store_at_harvest force env) |}.
Proof.
  intros He. unfold after_harvest, store_at_harvest.
  destruct force; cbn; rewrite He; reflexivity.
Qed.

(** X13. A [dump_trajectories] that raises, for a reason other than a
    failure of the storage itself, has written nothing and lost nothing: the
    files are as before, no write was attempted, and the buffer holds what it
    held followed by what the call harvested, ready for the next dump.  The
    reasons are: no environment is bound, and the call raises
    [AttributeError] before it harvests; the epoch property raises, and the
    call raises the same; or the file found at the shard path holds no
    pickled list. *)
Theorem X13_failed_dump_loses_nothing (force : bool) (w w' : W) x :
  dump_trajectories force w = (Raises x, w') ->
  files (gfile w') = files (gfile w)
  /\ written_paths (oplog (gfile w')) = written_paths (oplog (gfile w))
  /\ match _train_env (self w) with
     | None => x = AttributeError
               /\ _trajectory_buffer (self w') = _trajectory_buffer (self w)
     | Some env =>
         _trajectory_buffer (self w')
         = _trajectory_buffer (self w) ++ harvested force env
         /\ exists d,
              trajectory_dump_dir (self w) = Some d
              /\ (epoch (after_harvest force d w) = Raises x
                  \/ exists e raw,
                       epoch (after_harvest force d w) = Returns e
                       /\ files (gfile w) !! shard_path d e = Some (Raw raw))
     end.
Proof.
  intros Hdump.
  destruct (trajectory_dump_dir (self w)) as [d|] eqn:Hd.
  2:{ rewrite dump_trajectories_no_dir in Hdump by assumption. discriminate. }
  destruct (_train_env (self w)) as [env|] eqn:He.
  2:{ rewrite (dump_trajectories_no_env _ _ d) in Hdump by assumption.
      injection Hdump as <- <-. cbn [files oplog fs_makedirs gfile on_gfile self].
      rewrite written_paths_makedirs. auto. }
  rewrite (dump_trajectories_eq _ _ d env) in Hdump by assumption.
  cbv zeta in Hdump.
  pose proof (after_harvest_buffer force d w env He) as Hb.
  destruct (after_harvest_frame force d w) as (Hg & _).
  destruct (writes_shard force d w); [|discriminate].
  destruct (epoch (after_harvest force d w)) as [e|x0] eqn:Hep.
  - destruct (files (gfile w) !! shard_path d e) as [[old|raw]|] eqn:Ef;
      cbn [pkl_load] in Hdump; try discriminate.
    injection Hdump as <- <-. cbn -[after_harvest written_paths].
    rewrite Hg, Hb. cbn [files oplog fs_makedirs].
    rewrite written_paths_read, written_paths_makedirs.
    split; [reflexivity|]. split; [reflexivity|]. split; [reflexivity|].
    exists d. split; [reflexivity|]. right. exists e, raw. now split.
  - injection Hdump as <- <-. rewrite Hg, Hb. cbn [files oplog fs_makedirs].
    rewrite written_paths_makedirs. eauto 10.
Qed.

(** X14. Every shard an unforced [dump_trajectories] writes holds at least
    the minimum count of trajectories: the call writes at most once, a
    pickled list, and only when the buffer has reached the minimum. *)
Theorem X14_unforced_shard_is_full (w : W) p c :
  In (OpWrite p c)
     (drop (length (oplog (gfile w)))
           (oplog (gfile (snd (dump_trajectories false w))))) ->
  exists l,
    c = Pickled l
    /\ _trajectory_dump_min_count_per_shard (self w) <= Z.of_nat (length l)
    /\ files (gfile (snd (dump_trajectories false w))) !! p = Some (Pickled l).
Proof.
  destruct (trajectory_dump_dir (self w)) as [d|] eqn:Hd.
  2:{ rewrite dump_trajectories_no_dir by assumption. cbn.
      rewrite drop_all. intros []. }
  destruct (_train_env (self w)) as [env|] eqn:He.
  2:{ rewrite (dump_trajectories_no_env _ _ d) by assumption. cbn.
      rewrite drop_app_length. intros [H|[]]. discriminate. }
  rewrite (dump_trajectories_eq _ _ d env) by assumption. cbv zeta.
  destruct (after_harvest_frame false d w) as (Hg & _).
  unfold writes_shard. rewrite Bool.orb_false_r.
  destruct (Z.leb_spec (_trajectory_dump_min_count_per_shard (self w))
              (Z.of_nat (length (_trajectory_buffer
                                   (self (after_harvest false d w))))))
    as [Hle|Hlt].
  2:{ cbn -[after_harvest]. rewrite Hg. cbn. rewrite drop_app_length.
      intros [H|[]]. discriminate. }
  destruct (epoch (after_harvest false d w)) as [e|x].
  2:{ cbn -[after_harvest]. rewrite Hg. cbn. rewrite drop_app_length.
      intros [H|[]]. discriminate. }
  destruct (files (gfile w) !! shard_path d e) as [[old|raw]|];
    cbn -[after_harvest]; rewrite Hg; cbn -[after_harvest];
    rewrite <- ?app_assoc, drop_app_length; cbn -[after_harvest].
  - intros [H|[H|[H|[]]]]; try discriminate. injection H as <- <-.
    eexists. split; [reflexivity|]. rewrite lookup_insert_eq.
    split; [|reflexivity]. rewrite length_app.
    apply (Z.le_trans _ _ _ Hle). apply Nat2Z.inj_le. apply Nat.le_add_l.
  - intros [H|[H|[]]]; discriminate.
  - intros [H|[H|[]]]; try discriminate. injection H as <- <-.
    eexists. split; [reflexivity|]. rewrite lookup_insert_eq.
    split; [assumption | reflexivity].
Qed.

(** X15. Provided the store of the environment really empties its
    completed set when asked to clear it, a dump that got as far as
    harvesting leaves that set empty, so that a dump made right afterwards,
    before the environment has run, harvests nothing: no trajectory is
    dumped twice. *)
Theorem X15_nothing_is_harvested_twice (force : bool) (w : W) d env :
  (forall s : St, completed_trajectories (clear_completed_trajectories s) = []) ->
  trajectory_dump_dir (self w) = Some d ->
  _train_env (self w) = Some env ->
  let w' := snd (dump_trajectories force w) in
  exists env',
    _train_env (self w') = Some env'
    /\ completed_trajectories (trajectories env') = []
    /\ harvested false env' = [].
Proof.
  intros Hclear Hd He. cbv zeta.
  exists {| action_space := action_space env;
            observation_space := observation_space env;
            trajectories :=
              clear_completed_trajectories (store_at_harvest force env) |}.
  split.
  - rewrite (dump_trajectories_eq _ _ d env) by assumption. cbv zeta.
    pose proof (after_harvest_env force d w env He) as Henv.
    destruct (writes_shard force d w); [|exact Henv].
    destruct (epoch (after_harvest force d w)) as [e|x]; [|exact Henv].
    destruct (files (gfile w) !! shard_path d e) as [[old|raw]|];
      cbn -[after_harvest]; exact Henv.
  - unfold harvested, store_at_harvest. cbn. rewrite Hclear. split; reflexivity.
Qed.

(** X16. Forcing a dump twice in a row is harmless: when the second call
    finds nothing to harvest and the epoch has not moved, it returns and
    leaves the same files, the same directories and an empty buffer; only
    the history of file operations grows. *)
Theorem X16_forced_dump_twice (w w1 : W) d e env1 :
  trajectory_dump_dir (self w) = Some d ->
  dump_trajectories true w = (Returns tt, w1) ->
  epoch (after_harvest true d w) = Returns e ->
  epoch (after_harvest true d w1) = Returns e ->
  _train_env (self w1) = Some env1 ->
  harvested true env1 = [] ->
  exists w2,
    dump_trajectories true w1 = (Returns tt, w2)
    /\ files (gfile w2) = files (gfile w1)
    /\ dirs (gfile w2) = dirs (gfile w1)
    /\ _trajectory_buffer (self w2) = [].
Proof.
  intros Hd Hdump Hep Hep1 He1 Hh.
  destruct (_train_env (self w)) as [env|] eqn:He.
  2:{ rewrite (dump_trajectories_no_env _ _ d) in Hdump by assumption.
      discriminate. }
  assert (H1 : exists l, files (gfile w1) !! shard_path d e = Some (Pickled l)
                         /\ _trajectory_buffer (self w1) = []
                         /\ trajectory_dump_dir (self w1) = Some d
                         /\ d ∈ dirs (gfile w1)).
  { rewrite (dump_trajectories_eq _ _ d env) in Hdump by assumption.
    cbv zeta in Hdump.
    assert (Hws : writes_shard true d w = true)
      by (unfold writes_shard; apply Bool.orb_true_r).
    rewrite Hws, Hep in Hdump.
    destruct (after_harvest_frame true d w) as (Hg & _ & Hdd & _).
    destruct (files (gfile w) !! shard_path d e) as [[old|raw]|];
      cbn [pkl_load] in Hdump; try discriminate;
      injection Hdump as <-; cbn -[after_harvest]; rewrite Hg, Hdd; cbn;
      eexists; rewrite lookup_insert_eq;
      (split; [reflexivity|]); (split; [reflexivity|]);
      (split; [assumption|]);
      apply elem_of_union_l, elem_of_singleton; reflexivity. }
  destruct H1 as (l & Hl & Hb1 & Hd1 & Hdir).
  rewrite (dump_trajectories_eq _ _ d env1) by assumption. cbv zeta.
  assert (Hws : writes_shard true d w1 = true)
    by (unfold writes_shard; apply Bool.orb_true_r).
  rewrite Hws, Hep1, Hl. cbn [pkl_load].
  pose proof (after_harvest_buffer true d w1 env1 He1) as Hb.
  destruct (after_harvest_frame true d w1) as (Hg & _).
  eexists. split; [reflexivity|]. cbn -[after_harvest].
  rewrite Hg, Hb, Hb1, Hh. cbn. rewrite app_nil_r.
  split; [now apply insert_id|]. split; [|reflexivity].
  apply leibniz_equiv. apply subseteq_union_1.
  now apply singleton_subseteq_l.
Qed.

Lemma filter_sublist {A} (f : A -> bool) (l : list A) :
  List.filter f l `sublist_of` l.
Proof.
  induction l as [|x l IH]; cbn; [constructor|].
  destruct (f x); [now apply sublist_skip | now apply sublist_cons].
Qed.

(** X17. What [dump_trajectories] takes from the store: the filter returns
    on the completed set (the one left by [complete_all_trajectories] when
    the dump is forced) and keeps, in their order, exactly the trajectories
    that have a first step with an action, whatever their later steps; the
    call puts them behind what the buffer held, and they are either still in
    the buffer after the call or, behind the buffered ones, at the end of
    the shard the call wrote last. *)
Theorem X17_harvest_keeps_order (force : bool) (w : W) (d : string) (env : Env St) :
  trajectory_dump_dir (self w) = Some d ->
  _train_env (self w) = Some env ->
  let completed :=
    completed_trajectories
      (if force then complete_all_trajectories (trajectories env)
       else trajectories env) in
  let w' := snd (dump_trajectories force w) in
  exists kept,
    py_filter has_any_action completed = Returns kept
    /\ kept `sublist_of` completed
    /\ (forall t, In t kept <->
          In t completed
          /\ exists step rest a,
               time_steps t = step :: rest /\ action step = Some a)
    /\ (_trajectory_buffer (self w') = _trajectory_buffer (self w) ++ kept
        \/ (_trajectory_buffer (self w') = []
            /\ exists p on_disk,
                 files (gfile w') !! p
                 = Some (Pickled (on_disk ++ _trajectory_buffer (self w) ++ kept))
                 /\ last (oplog (gfile w'))
                    = Some (OpWrite p
                              (Pickled (on_disk ++ _trajectory_buffer (self w)
                                        ++ kept))))).
Proof.
  intros Hd He. cbv zeta.
  exists (harvested force env).
  split; [apply py_filter_has_any_action|].
  split; [apply filter_sublist|]. split.
  - intros t. unfold harvested, store_at_harvest.
    rewrite List.filter_In, keeps_first_step. split.
    + intros [Hin Hk]. split; [assumption|].
      destruct (time_steps t) as [|step rest]; [discriminate|].
      destruct (action step) as [a|] eqn:Ha; [|discriminate].
      exists step, rest, a. now split.
    + intros [Hin (step & rest & a & -> & ->)]. now split.
  - rewrite (dump_trajectories_eq _ _ d env) by assumption. cbv zeta.
    pose proof (after_harvest_buffer force d w env He) as Hb.
    destruct (after_harvest_frame force d w) as (Hg & _).
    destruct (writes_shard force d w); [|now left].
    destruct (epoch (after_harvest force d w)) as [e|x]; [|now left].
    destruct (files (gfile w) !! shard_path d e) as [[old|raw]|];
      cbn [pkl_load].
    + right. cbn -[after_harvest]. rewrite Hg, Hb. cbn.
      split; [reflexivity|]. exists (shard_path d e), old.
      rewrite lookup_insert_eq. split; [reflexivity | apply last_snoc].
    + left. exact Hb.
    + right. cbn -[after_harvest]. rewrite Hg, Hb. cbn.
      split; [reflexivity|]. exists (shard_path d e), [].
      rewrite lookup_insert_eq. split; [reflexivity | apply last_snoc].
Qed.


(** ** The completion marker again *)

Lemma indicate_done_self (w : W) : self (snd (indicate_done w)) = self w.
Proof.
  unfold indicate_done, bind, gets, ret, raise, modify.
  destruct (_async_mode (self w)); cbn; [|reflexivity].
  destruct (_output_dir (self w)); reflexivity.
Qed.

(** X18. In async mode without an output directory [indicate_done] raises
    [TypeError] and changes nothing.  In every case it leaves the trainer,
    the directories and the other files alone, removes no file, and calling
    it a second time leaves the files as the first call left them. *)
Theorem X18_indicate_done_edges :
  (forall w : W,
     _async_mode (self w) = true -> _output_dir (self w) = None ->
     indicate_done w = (Raises TypeError, w))
  /\ (forall w : W,
        let w1 := snd (indicate_done w) in
        self w1 = self w /\ sub w1 = sub w
        /\ dirs (gfile w1) = dirs (gfile w)
        /\ (forall p, is_Some (files (gfile w) !! p) ->
                      is_Some (files (gfile w1) !! p))
        /\ (forall p d, _output_dir (self w) = Some d -> p <> marker_path d ->
                        files (gfile w1) !! p = files (gfile w) !! p))
  /\ (forall w : W,
        files (gfile (snd (indicate_done (snd (indicate_done w)))))
        = files (gfile (snd (indicate_done w)))).
Proof.
  split; [|split].
  - intros w Ha Ho. unfold indicate_done, bind, gets, ret, raise.
    rewrite Ha. cbn. rewrite Ho. reflexivity.
  - intros w. cbv zeta. destruct (_async_mode (self w)) eqn:Ha.
    + destruct (_output_dir (self w)) as [d|] eqn:Ho.
      * rewrite (indicate_done_async w d) by assumption. cbn.
        repeat split.
        -- intros p Hp. destruct (decide (marker_path d = p)) as [<-|Hne];
             [rewrite lookup_insert_eq; eauto
             |now rewrite lookup_insert_ne by assumption].
        -- intros p d' [= <-] Hne. now rewrite lookup_insert_ne by congruence.
      * unfold indicate_done, bind, gets, ret, raise.
        rewrite Ha. cbn. rewrite Ho. cbn. auto.
    + rewrite indicate_done_sync by assumption. cbn. auto.
  - intros w. destruct (_async_mode (self w)) eqn:Ha.
    + destruct (_output_dir (self w)) as [d|] eqn:Ho.
      * rewrite (indicate_done_async w d) by assumption. cbn [snd].
        rewrite (indicate_done_async _ d) by (cbn; assumption). cbn.
        apply insert_insert_eq.
      * assert (H : indicate_done w = (Raises TypeError, w)).
        { unfold indicate_done, bind, gets, ret, raise.
          rewrite Ha. cbn. rewrite Ho. reflexivity. }
        rewrite H. cbn [snd]. now rewrite H.
    + rewrite (indicate_done_sync w) by assumption. cbn [snd].
      now rewrite (indicate_done_sync w) by assumption.
Qed.

(** X19. The setter of [async_mode] changes that flag and nothing else, and
    [indicate_done] follows the flag as last set, whatever the constructor
    was given: after setting it the marker is written exactly when the value
    set was [True]. *)
Theorem X19_async_mode_setter (w : W) (b : bool) (d : string) :
  _output_dir (self w) = Some d ->
  let w1 := snd (in_self (async_mode_setter b) w) in
  fst (in_self (async_mode_setter b) w) = Returns tt
  /\ async_mode (self w1) = b
  /\ set_async_mode (_async_mode (self w)) (self w1) = self w
  /\ gfile w1 = gfile w /\ sub w1 = sub w
  /\ fst (indicate_done w1) = Returns tt
  /\ files (gfile (snd (indicate_done w1)))
     = if b then <[marker_path d := Raw ""]> (files (gfile w))
       else files (gfile w).
Proof.
  intros Ho. cbv zeta.
  change (snd (in_self (async_mode_setter b) w))
    with (on_self (set_async_mode b) w).
  split; [reflexivity|]. split; [reflexivity|]. split.
  { destruct w as [t fs u]. destruct t. reflexivity. }
  split; [reflexivity|]. split; [reflexivity|].
  destruct b.
  - rewrite (indicate_done_async _ d) by (cbn; auto). cbn. auto.
  - rewrite indicate_done_sync by reflexivity. cbn. auto.
Qed.

(** ** Whole runs *)

Lemma ends_with_bind {A B} (I Q : W -> Prop) (m : M R A) (k : A -> M R B) :
  keeps_world I m -> (forall a, ends_with I Q (k a)) ->
  ends_with I Q (bind m k).
Proof.
  intros Hm Hk r Hr. unfold bind. specialize (Hm r Hr).
  destruct (m r) as [[a|x] r1]; cbn in *; [now apply Hk | contradiction].
Qed.

Lemma ends_with_call {A} (I Q : W -> Prop) c (m : M W A) :
  (forall w, I w -> is_returns (fst (m w)) -> Q (snd (m w))) ->
  ends_with I Q (call c m).
Proof.
  intros Hm r Hr. unfold call. specialize (Hm (fst r) Hr).
  destruct (m (fst r)). exact Hm.
Qed.

Lemma loop_and_after_keeps_world (I : W -> Prop) k eval_flag :
  hooks_preserve I ->
  (forall force w, I w -> I (snd (dump_trajectories force w))) ->
  (forall w, I w -> I (snd (indicate_done w))) ->
  keeps_world I (bind (for_range k (loop_body eval_flag))
                      (fun _ => after_loop eval_flag)).
Proof.
  intros [H1 H2 H3 H4 H5] Hdump Hdone. apply keeps_world_bind.
  { apply keeps_world_for_range. unfold loop_body.
    repeat (apply keeps_world_bind; [apply keeps_world_call; auto | intros _]).
    apply keeps_world_call; auto. }
  intros _. unfold after_loop.
  repeat (apply keeps_world_bind; [apply keeps_world_call; auto | intros _]).
  apply keeps_world_bind.
  { destruct eval_flag; [apply keeps_world_call; auto | apply keeps_world_ret]. }
  intros _.
  apply keeps_world_bind; [apply keeps_world_call; auto | intros _].
  apply keeps_world_call; auto.
Qed.

Lemma loop_and_after_ends_with (I Q : W -> Prop) k eval_flag :
  hooks_preserve I ->
  (forall force w, I w -> I (snd (dump_trajectories force w))) ->
  (forall w, I w -> is_returns (fst (indicate_done w)) ->
             Q (snd (indicate_done w))) ->
  ends_with I Q (bind (for_range k (loop_body eval_flag))
                      (fun _ => after_loop eval_flag)).
Proof.
  intros [H1 H2 H3 H4 H5] Hdump Hdone. apply ends_with_bind.
  { apply keeps_world_for_range. unfold loop_body.
    repeat (apply keeps_world_bind; [apply keeps_world_call; auto | intros _]).
    apply keeps_world_call; auto. }
  intros _. unfold after_loop.
  repeat (apply ends_with_bind; [apply keeps_world_call; auto | intros _]).
  apply ends_with_bind.
  { destruct eval_flag; [apply keeps_world_call; auto | apply keeps_world_ret]. }
  intros _.
  apply ends_with_bind; [apply keeps_world_call; auto | intros _].
  now apply ends_with_call.
Qed.

Lemma reset_async_in d (w : W) :
  async_in d w -> async_in d (snd (reset (_output_dir (self w)) w)).
Proof.
  intros [Ha Ho]. unfold reset, bind, gets, modify, ret, raise.
  rewrite Ho. cbn. now split.
Qed.

Lemma dump_trajectories_async_in d force (w : W) :
  async_in d w -> async_in d (snd (dump_trajectories force w)).
Proof.
  intros [Ha Ho].
  destruct (dump_trajectories_frame force w) as (_ & _ & _ & H1 & H2 & _).
  cbv zeta in H1, H2. split; congruence.
Qed.

(** X20. In async mode a [training_loop] that returns has signalled it:
    when the hooks leave the async flag on and the output directory in
    place, the empty marker file is in the output directory at the end. *)
Theorem X20_async_run_leaves_marker (d : string) (n : Z) (eval_flag : bool)
    (w : W) :
  hooks_preserve (async_in d) ->
  async_in d w ->
  let run := training_loop n eval_flag (w, []) in
  is_returns (fst run) ->
  files (gfile (fst (snd run))) !! marker_path d = Some (Raw "")
  /\ async_in d (fst (snd run)).
Proof.
  intros Hhooks Hw. cbv zeta.
  assert (Hend : forall k r,
             async_in d (fst r) ->
             let m := bind (for_range k (loop_body eval_flag))
                        (fun _ => after_loop eval_flag) in
             is_returns (fst (m r)) ->
             files (gfile (fst (snd (m r)))) !! marker_path d = Some (Raw "")
             /\ async_in d (fst (snd (m r)))).
  { intros k r Hr. cbv zeta.
    apply (loop_and_after_ends_with (async_in d)
             (fun w => files (gfile w) !! marker_path d = Some (Raw "")
                       /\ async_in d w) k eval_flag); try assumption.
    - intros force w0. apply dump_trajectories_async_in.
    - intros w0 [Ha Ho] _. rewrite (indicate_done_async w0 d) by assumption.
      cbn. rewrite lookup_insert_eq. repeat split; assumption. }
  destruct (_trainer_reset_called (self w)) eqn:Hcalled.
  - rewrite training_loop_entered by assumption.
    destruct (epoch w) as [e0|x]; [|intros []].
    apply Hend. exact Hw.
  - rewrite training_loop_resets by assumption.
    pose proof (reset_async_in d w Hw) as Hw1.
    destruct (reset (_output_dir (self w)) w) as [[[]|x] w1]; [|intros []].
    cbn [snd] in Hw1. destruct (epoch w1) as [e0|x]; [|intros []].
    apply Hend. exact Hw1.
Qed.

Lemma reset_reset_done od (w : W) : reset_done (snd (reset od w)).
Proof.
  unfold reset_done, reset, bind, gets, modify, ret, raise.
  destruct od as [d|]; cbn; [reflexivity|].
  destruct (_output_dir (self w)); reflexivity.
Qed.

(** X21. The trainer is reset at most once.  Whatever the outcome of a
    [training_loop], and whether or not the trainer had been reset before,
    it is marked as reset afterwards (the hooks leaving the mark alone), and
    a later [training_loop] does not call [reset]. *)
Theorem X21_reset_happens_once (n : Z) (eval_flag : bool) (w : W) :
  hooks_preserve reset_done ->
  let w' := fst (snd (training_loop n eval_flag (w, []))) in
  reset_done w'
  /\ forall n' eval_flag',
       ~ In CallReset (snd (snd (training_loop n' eval_flag' (w', [])))).
Proof.
  intros Hhooks. cbv zeta.
  assert (Hrest : forall k r,
             reset_done (fst r) ->
             reset_done (fst (snd (bind (for_range k (loop_body eval_flag))
                                     (fun _ => after_loop eval_flag) r)))).
  { intros k. apply loop_and_after_keeps_world; try assumption.
    - intros force w0 H0. unfold reset_done in *.
      destruct (dump_trajectories_frame force w0) as (_ & _ & _ & _ & _ & H).
      cbv zeta in H. congruence.
    - intros w0 H0. unfold reset_done in *.
      now rewrite indicate_done_self. }
  assert (Hdone : reset_done (fst (snd (training_loop n eval_flag (w, []))))).
  { destruct (_trainer_reset_called (self w)) eqn:Hcalled.
    - rewrite training_loop_entered by assumption.
      destruct (epoch w) as [e0|x]; [|exact Hcalled].
      apply Hrest. exact Hcalled.
    - rewrite training_loop_resets by assumption.
      pose proof (reset_reset_done (_output_dir (self w)) w) as H1.
      destruct (reset (_output_dir (self w)) w) as [[[]|x] w1];
        [|exact H1].
      cbn [snd] in H1. destruct (epoch w1) as [e0|x]; [|exact H1].
      apply Hrest. exact H1. }
  split; [exact Hdone|].
  intros n' eval_flag'. rewrite training_loop_entered by exact Hdone.
  match goal with |- context [epoch ?x] => destruct (epoch x) as [e0|x'] end;
    [|intros []].
  match goal with |- context [bind ?m ?k ?r] =>
    destruct (loop_and_after_makes_calls (Z.to_nat (n' - e0)) eval_flag' r)
      as (l & E & P & _) end.
  rewrite E. cbn [snd app]. intros Hin.
  apply (body_calls_no_reset (Z.to_nat (n' - e0)) eval_flag').
  eapply prefix_In; eauto.
Qed.

End Proofs.

(** * The theorems at concrete inputs *)

Lemma C10_witness :
  trajectory_dump_dir (self idle_world) = None
  /\ dump_trajectories (BatchTrajectory0 := ListStore_ops)
       (TrainerHooks0 := CountingHooks 1) true idle_world
     = (Returns tt, idle_world).
Proof.
  split; [reflexivity|].
  apply (C10_dump_without_dir_changes_nothing
           (BatchTrajectory0 := ListStore_ops)
           (TrainerHooks0 := CountingHooks 1)).
  reflexivity.
Defined.

Lemma C9_witness :
  time_steps no_steps = []
  /\ has_any_action no_steps = Returns (PyList []).
Proof.
  split; [reflexivity|].
  apply (C9_empty_trajectory_is_filtered
           (U := Z) (BatchTrajectory0 := ListStore_ops)
           (TrainerHooks0 := CountingHooks 1) no_steps).
  reflexivity.
Defined.

Lemma C5_witness :
  degenerate just_reset /\ keeps just_reset = false.
Proof.
  assert (Hd : degenerate just_reset).
  { exists {| observation := 0; action := None |}, []. split; reflexivity. }
  split; [exact Hd|].
  apply (proj1 (C5_degenerate_never_in_a_shard
                  (U := Z) (BatchTrajectory0 := ListStore_ops)
                  (TrainerHooks0 := CountingHooks 1))).
  exact Hd.
Defined.

Lemma C4_witness :
  trajectory_dump_dir (self dumping_world) = Some "dump"
  /\ _train_env (self dumping_world) = Some busy_env
  /\ _trajectory_dump_min_count_per_shard (self dumping_world) = 16
  /\ exists w',
       dump_trajectories (BatchTrajectory0 := ListStore_ops)
         (TrainerHooks0 := CountingHooks 1) true dumping_world
       = (Returns tt, w')
       /\ _trajectory_buffer (self w') = []
       /\ files (gfile w') !! "dump/0.pkl"
          = Some (Pickled [episode 7; episode 1; episode 3]).
Proof.
  split; [reflexivity|]. split; [reflexivity|]. split; [reflexivity|].
  destruct (C4_forced_dump_flushes
              (BatchTrajectory0 := ListStore_ops)
              (TrainerHooks0 := CountingHooks 1)
              dumping_world "dump" busy_env 0)
    as (w' & H1 & H2 & H3 & _).
  - reflexivity.
  - reflexivity.
  - reflexivity.
  - intros raw H. vm_compute in H. discriminate.
  - exists w'. split; [exact H1|]. split; [exact H2|].
    rewrite H3. vm_compute. reflexivity.
Defined.

Lemma C1_witness :
  files (gfile merging_world) !! "dump/0.pkl" = Some (Pickled [episode 5])
  /\ exists w',
       dump_trajectories (BatchTrajectory0 := ListStore_ops)
         (TrainerHooks0 := CountingHooks 1) true merging_world
       = (Returns tt, w')
       /\ files (gfile w') !! "dump/0.pkl"
          = Some (Pickled [episode 5; episode 7; episode 1; episode 3]).
Proof.
  split; [vm_compute; reflexivity|].
  destruct (C1_dump_merges_into_existing_shard
              (BatchTrajectory0 := ListStore_ops)
              (TrainerHooks0 := CountingHooks 1)
              merging_world true "dump" busy_env 0 [episode 5])
    as (w' & H1 & H2 & _).
  - reflexivity.
  - reflexivity.
  - reflexivity.
  - vm_compute. reflexivity.
  - reflexivity.
  - exists w'. split; [exact H1|]. rewrite H2. vm_compute. reflexivity.
Defined.

Lemma C3_witness :
  let w' := snd (dump_trajectories (BatchTrajectory0 := ListStore_ops)
                   (TrainerHooks0 := CountingHooks 1) false dumping_world) in
  trajectory_dump_dir (self dumping_world) = Some "dump"
  /\ periodic_dumps (BatchTrajectory0 := ListStore_ops)
       (TrainerHooks0 := CountingHooks 1)
       dumping_world [[episode 1; just_reset; no_steps]] w'
  /\ files (gfile w') = files (gfile dumping_world)
  /\ _trajectory_buffer (self w') = [episode 7; episode 1].
Proof.
  cbv zeta.
  assert (Hrun : periodic_dumps (BatchTrajectory0 := ListStore_ops)
                   (TrainerHooks0 := CountingHooks 1)
                   dumping_world [[episode 1; just_reset; no_steps]]
                   (snd (dump_trajectories (BatchTrajectory0 := ListStore_ops)
                           (TrainerHooks0 := CountingHooks 1) false
                           dumping_world))).
  { apply (pd_step (BatchTrajectory0 := ListStore_ops)
             (TrainerHooks0 := CountingHooks 1)
             dumping_world [] dumping_world dumping_world _ busy_env).
    - apply pd_nil.
    - split; reflexivity.
    - reflexivity.
    - vm_compute. reflexivity. }
  split; [reflexivity|]. split; [exact Hrun|].
  destruct (C3_periodic_dumps_keep_and_wait
              (BatchTrajectory0 := ListStore_ops)
              (TrainerHooks0 := CountingHooks 1)
              dumping_world _ _ "dump" eq_refl Hrun)
    as (_ & _ & H & _).
  destruct H as (H1 & _ & H3).
  - vm_compute. reflexivity.
  - split; [exact H1 | exact H3].
Defined.

Lemma C6_witness :
  let first := sample_trainer (sample_env [] []) None None 16 false [] in
  _train_env first = Some (sample_env [] [])
  /\ shape (action_space wider_env) <> shape float32_4
  /\ set_train_env (Some wider_env) first = (Raises AssertionError, first)
  /\ exists t',
       set_train_env (Some busy_env) first = (Returns tt, t')
       /\ _train_env t' = Some busy_env.
Proof.
  cbv zeta.
  assert (Hne : shape (action_space wider_env) <> shape float32_4)
    by discriminate.
  split; [reflexivity|]. split; [exact Hne|]. split.
  - apply (proj1 (proj2 (C6_train_env_binding
                           (Action := Z) (Observation := Z) (St := ListStore)))
             _ (sample_env [] []) wider_env float32_4 float32_4);
      [reflexivity | reflexivity | reflexivity | left; exact Hne].
  - destruct (proj2 (proj2 (C6_train_env_binding
                              (Action := Z) (Observation := Z) (St := ListStore)))
                (sample_trainer (sample_env [] []) None None 16 false [])
                (sample_env [] []) busy_env float32_4 float32_4)
      as (t' & H1 & H2 & _); try reflexivity.
    exists t'. split; assumption.
Defined.

Lemma C7_witness :
  (exists w',
     reset (Some "out") unconfigured_world = (Returns tt, w')
     /\ _output_dir (self w') = Some "out"
     /\ "out" ∈ dirs (gfile w')
     /\ _trainer_reset_called (self w') = true)
  /\ (exists w',
        reset None unconfigured_world = (Raises AssertionError, w')
        /\ gfile w' = gfile unconfigured_world).
Proof.
  destruct (C7_reset_needs_an_output_dir unconfigured_world (Some "out"))
    as [_ Hsome].
  destruct (C7_reset_needs_an_output_dir unconfigured_world None)
    as [Hnone _].
  split.
  - destruct (Hsome "out" eq_refl) as (w' & H1 & H2 & H3 & _ & _ & H6).
    exists w'. repeat split; assumption.
  - destruct (Hnone eq_refl) as (w' & H1 & H2 & _).
    exists w'. split; assumption.
Defined.

Lemma C8_witness :
  _async_mode (self idle_world) = false
  /\ indicate_done idle_world = (Returns tt, idle_world)
  /\ exists w',
       indicate_done async_world = (Returns tt, w')
       /\ files (gfile w') !! "out/__done__" = Some (Raw "").
Proof.
  pose proof (C8_indicate_done_marker
                (BatchTrajectory0 := ListStore_ops)
                (TrainerHooks0 := CountingHooks 1)) as (Hsync & Hasync & _).
  split; [reflexivity|]. split.
  - apply Hsync. reflexivity.
  - destruct (Hasync async_world "out" eq_refl eq_refl)
      as (w' & H1 & _ & H3 & _).
    exists w'. split; [exact H1|]. rewrite H3. vm_compute. reflexivity.
Defined.

Lemma counting_body_advances (eval_flag : bool) :
  body_advances_by_one_from (BatchTrajectory0 := ListStore_ops)
    (TrainerHooks0 := CountingHooks 1)
    (fun w => trajectory_dump_dir (self w) = None) eval_flag.
Proof.
  intros r e HI Hep. unfold loop_body, bind, call. cbn [fst snd].
  cbn [train_epoch maybe_save CountingHooks modify ret fst snd].
  rewrite dump_trajectories_no_dir by exact HI. cbn [fst snd].
  split; [exact I|]. split; [exact HI|].
  cbn in Hep. injection Hep as <-. reflexivity.
Qed.

Lemma C2_witness :
  epoch (TrainerHooks := CountingHooks 1) (world_at_loop_entry idle_world)
  = Returns 0
  /\ snd (snd (training_loop (BatchTrajectory0 := ListStore_ops)
                 (TrainerHooks0 := CountingHooks 1) 2 false (idle_world, [])))
     = [CallReset;
        CallTrainEpoch false; CallMaybeSave; CallDumpTrajectories false;
        CallTrainEpoch false; CallMaybeSave; CallDumpTrajectories false;
        CallSave; CallDumpTrajectories true;
        CallFlushSummaries; CallIndicateDone]
  /\ trajectory_dump_dir (self (world_at_loop_entry idle_world)) = None
  /\ training_loop_as_specified (BatchTrajectory0 := ListStore_ops)
       (TrainerHooks0 := CountingHooks 1) 5 2 false (idle_world, [])
     = (Returns (Some tt),
        snd (training_loop (BatchTrajectory0 := ListStore_ops)
               (TrainerHooks0 := CountingHooks 1) 2 false (idle_world, [])))
  /\ epoch (TrainerHooks := CountingHooks 1)
       (fst (snd (for_range 2
                    (loop_body (BatchTrajectory0 := ListStore_ops)
                       (TrainerHooks0 := CountingHooks 1) false)
                    (world_at_loop_entry idle_world, [CallReset]))))
     = Returns 2.
Proof.
  split; [reflexivity|].
  destruct (C2_training_loop_order
              (BatchTrajectory0 := ListStore_ops)
              (TrainerHooks0 := CountingHooks 1)
              2 false idle_world 0) as (_ & H & _ & H4).
  - intros _. exact I.
  - reflexivity.
  - split; [apply H; exact I|]. split; [reflexivity|].
    destruct (H4 (fun w => trajectory_dump_dir (self w) = None)
                (counting_body_advances false)) as [Hloop Hag].
    split.
    + rewrite (Hag eq_refl 5%nat) by (vm_compute; lia).
      f_equal.
    + destruct (Hloop (world_at_loop_entry idle_world, [CallReset])
                  eq_refl eq_refl) as (_ & _ & H3 & _).
      exact H3.
Defined.

(** C2 as the specification has it fails.  With a hook that advances the
    epoch counter by two, from epoch 0 and for two epochs, the counter
    reaches 2 after the first body; the loop of the specification stops
    there, the code runs a second body.  With a hook that never advances
    the counter the code leaves the loop after two bodies, at epoch 0, where
    the loop of the specification would still be running when its fuel is
    spent. *)
Lemma C2_counterexample :
  let code := training_loop (BatchTrajectory0 := ListStore_ops)
                (TrainerHooks0 := CountingHooks 2) 2 true (idle_world, []) in
  let spec := training_loop_as_specified (BatchTrajectory0 := ListStore_ops)
                (TrainerHooks0 := CountingHooks 2) 5 2 true (idle_world, []) in
  let stalled := training_loop (BatchTrajectory0 := ListStore_ops)
                   (TrainerHooks0 := CountingHooks 0) 2 true (idle_world, []) in
  fst code = Returns tt
  /\ snd (snd code)
     = [CallReset;
        CallTrainEpoch true; CallMaybeSave; CallDumpTrajectories false;
        CallTrainEpoch true; CallMaybeSave; CallDumpTrajectories false;
        CallSave; CallDumpTrajectories true; CallEvaluate;
        CallFlushSummaries; CallIndicateDone]
  /\ fst spec = Returns (Some tt)
  /\ snd (snd spec)
     = [CallReset;
        CallTrainEpoch true; CallMaybeSave; CallDumpTrajectories false;
        CallSave; CallDumpTrajectories true; CallEvaluate;
        CallFlushSummaries; CallIndicateDone]
  /\ snd (snd code) <> snd (snd spec)
  /\ fst stalled = Returns tt
  /\ sub (fst (snd stalled)) = 0
  /\ fst (training_loop_as_specified (BatchTrajectory0 := ListStore_ops)
            (TrainerHooks0 := CountingHooks 0) 50 2 true (idle_world, []))
     = Returns None.
Proof.
  cbv zeta. repeat split; try (vm_compute; reflexivity).
  vm_compute. discriminate.
Qed.

(** * The further properties at concrete inputs *)

Lemma X1_witness :
  exists t,
    __init__ (Some busy_env) None (Some "out") (Some "dump") 16 false
    = Returns t
    /\ _trajectory_buffer t = ([] : list ZTrajectory)
    /\ _action_space t = Some float32_4.
Proof.
  destruct (proj2 (X1_constructor (Action := Z) (Observation := Z)
                     (St := ListStore))
              busy_env None (Some "out") (Some "dump") 16 false)
    as (t & H1 & _ & _ & H4 & _ & _ & H7 & _).
  exists t. repeat split; assumption.
Defined.

Lemma X2_witness :
  let t := sample_trainer busy_env (Some "dump") (Some "out") 16 false [] in
  let t' := snd (set_train_env (Some wider_env) t) in
  __init__ (Some busy_env) None (Some "out") (Some "dump") 16 false = Returns t
  /\ rebinds t t'
  /\ _action_space t' = Some float32_4.
Proof.
  cbv zeta.
  assert (Hinit : __init__ (Some busy_env) None (Some "out") (Some "dump")
                    16 false
                  = Returns (sample_trainer busy_env (Some "dump")
                               (Some "out") 16 false
                               ([] : list ZTrajectory)))
    by reflexivity.
  assert (Hrun : rebinds
                   (sample_trainer busy_env (Some "dump") (Some "out") 16
                      false ([] : list ZTrajectory))
                   (snd (set_train_env (Some wider_env)
                           (sample_trainer busy_env (Some "dump")
                              (Some "out") 16 false []))))
    by (apply rebinds_step, rebinds_nil).
  split; [exact Hinit|]. split; [exact Hrun|].
  destruct (X2_binding_invariant _ _ _ _ _ _ _ _ Hinit Hrun) as (_ & H & _).
  exact H.
Defined.

Lemma X3_witness :
  let t := sample_trainer busy_env None None 16 false ([] : list ZTrajectory) in
  set_train_env None t = (Raises AttributeError, t).
Proof.
  cbv zeta.
  apply (proj2 (X3_refused_binding_changes_nothing
                  (Action := Z) (Observation := Z) (St := ListStore))).
Defined.

Lemma X4_witness :
  let w1 := snd (reset (Some "out") unconfigured_world) in
  reset (Some "out") unconfigured_world = (Returns tt, w1)
  /\ exists w2, reset None w1 = (Returns tt, w2)
                /\ _output_dir (self w2) = Some "out".
Proof.
  cbv zeta.
  assert (H : reset (Some "out") unconfigured_world
              = (Returns tt, snd (reset (Some "out") unconfigured_world)))
    by reflexivity.
  split; [exact H|].
  destruct (X4_reset_again _ _ _ H) as (d & w2 & H1 & H2 & H3 & H4 & _).
  exists w2. split; [exact H3|]. rewrite H4. f_equal. now apply H2.
Defined.

Lemma X5_witness :
  let w' := snd (reset None unconfigured_world) in
  reset None unconfigured_world = (Raises AssertionError, w')
  /\ _trainer_reset_called (self w') = true.
Proof.
  cbv zeta.
  assert (H : reset None unconfigured_world
              = (Raises AssertionError, snd (reset None unconfigured_world)))
    by reflexivity.
  split; [exact H|].
  destruct (X5_failed_reset_is_not_retried
              (BatchTrajectory0 := ListStore_ops)
              (TrainerHooks0 := CountingHooks 1) _ _ _ H) as (_ & H1 & _).
  exact H1.
Defined.

Lemma X6_witness :
  _trainer_reset_called (self idle_world) = false
  /\ "out" ∈ dirs (gfile (world_at_loop_entry idle_world)).
Proof.
  split; [reflexivity|].
  destruct (X6_implicit_reset (BatchTrajectory0 := ListStore_ops)
              (TrainerHooks0 := CountingHooks 1) 2 true idle_world eq_refl)
    as (_ & _ & H).
  destruct (H "out" eq_refl) as (H1 & _). exact H1.
Defined.

Lemma X7_witness :
  let w := snd (reset None idle_world) in
  _trainer_reset_called (self w) = true
  /\ epoch (TrainerHooks := CountingHooks 1) w = Returns 0
  /\ snd (snd (training_loop (BatchTrajectory0 := ListStore_ops)
                 (TrainerHooks0 := CountingHooks 1) 0 false (w, [])))
     = [CallSave; CallDumpTrajectories true;
        CallFlushSummaries; CallIndicateDone].
Proof.
  cbv zeta. split; [reflexivity|]. split; [reflexivity|].
  destruct (X7_no_epoch_left (BatchTrajectory0 := ListStore_ops)
              (TrainerHooks0 := CountingHooks 1) 0 false
              (snd (reset None idle_world)) 0 eq_refl eq_refl)
    as (_ & H & _); [lia|].
  apply H. exact I.
Defined.

Lemma X8_witness :
  let w := snd (reset None idle_world) in
  train_epoch (TrainerHooks := RaisingHooks) true w
  = (Raises (OtherError "training failed"), w)
  /\ training_loop (BatchTrajectory0 := ListStore_ops)
       (TrainerHooks0 := RaisingHooks) 3 true (w, [])
     = (Raises (OtherError "training failed"), (w, [CallTrainEpoch true])).
Proof.
  cbv zeta. split; [reflexivity|].
  apply (X8_raising_hook_ends_the_loop (BatchTrajectory0 := ListStore_ops)
           (TrainerHooks0 := RaisingHooks) 3 true _ _ 0);
    [reflexivity | reflexivity | lia | reflexivity].
Defined.

Lemma X11_witness :
  is_Some (files (gfile merging_world) !! "dump/0.pkl")
  /\ is_Some (files (gfile (snd (dump_trajectories
                                   (BatchTrajectory0 := ListStore_ops)
                                   (TrainerHooks0 := CountingHooks 1)
                                   true merging_world))) !! "dump/0.pkl").
Proof.
  assert (H : is_Some (files (gfile merging_world) !! "dump/0.pkl")).
  { exists (Pickled [episode 5]). vm_compute. reflexivity. }
  split; [exact H|].
  apply (proj1 (X11_dump_writes_one_path (BatchTrajectory0 := ListStore_ops)
                  (TrainerHooks0 := CountingHooks 1) true merging_world)).
  exact H.
Defined.

Lemma X12_witness : shard_path "dump" 3 <> shard_path "dump" 4.
Proof.
  intros H.
  apply (proj1 (X12_one_shard_per_epoch
                  (BatchTrajectory0 := ListStore_ops)
                  (TrainerHooks0 := CountingHooks 1) "dump")) in H.
  discriminate.
Defined.

Lemma X13_witness :
  let w' := snd (dump_trajectories (BatchTrajectory0 := ListStore_ops)
                   (TrainerHooks0 := CountingHooks 1) true junk_world) in
  dump_trajectories (BatchTrajectory0 := ListStore_ops)
    (TrainerHooks0 := CountingHooks 1) true junk_world
  = (Raises UnpicklingError, w')
  /\ files (gfile w') = files (gfile junk_world).
Proof.
  cbv zeta.
  assert (H : dump_trajectories (BatchTrajectory0 := ListStore_ops)
                (TrainerHooks0 := CountingHooks 1) true junk_world
              = (Raises UnpicklingError,
                 snd (dump_trajectories (BatchTrajectory0 := ListStore_ops)
                        (TrainerHooks0 := CountingHooks 1) true junk_world)))
    by (vm_compute; reflexivity).
  split; [exact H|].
  destruct (X13_failed_dump_loses_nothing _ _ _ _ H) as (H1 & _).
  exact H1.
Defined.

Lemma X14_witness :
  let w' := snd (dump_trajectories (BatchTrajectory0 := ListStore_ops)
                   (TrainerHooks0 := CountingHooks 1) false ready_world) in
  In (OpWrite "dump/0.pkl" (Pickled [episode 7; episode 1]))
     (drop (length (oplog (gfile ready_world))) (oplog (gfile w')))
  /\ exists l, files (gfile w') !! "dump/0.pkl" = Some (Pickled l)
               /\ 2 <= Z.of_nat (length l).
Proof.
  cbv zeta.
  assert (H : In (OpWrite "dump/0.pkl" (Pickled [episode 7; episode 1]))
                (drop (length (oplog (gfile ready_world)))
                   (oplog (gfile (snd (dump_trajectories
                                         (BatchTrajectory0 := ListStore_ops)
                                         (TrainerHooks0 := CountingHooks 1)
                                         false ready_world)))))).
  { vm_compute. right. left. reflexivity. }
  split; [exact H|].
  destruct (X14_unforced_shard_is_full _ _ _ H) as (l & _ & H2 & H3).
  exists l. split; [exact H3 | exact H2].
Defined.

Lemma X15_witness :
  (forall s : ListStore,
     completed_trajectories (BatchTrajectory := ListStore_ops)
       (clear_completed_trajectories (BatchTrajectory := ListStore_ops) s)
     = [])
  /\ exists env',
       _train_env (self (snd (dump_trajectories
                                (BatchTrajectory0 := ListStore_ops)
                                (TrainerHooks0 := CountingHooks 1)
                                false dumping_world))) = Some env'
       /\ completed_trajectories (BatchTrajectory := ListStore_ops)
            (trajectories env') = [].
Proof.
  assert (Hlaw : forall s : ListStore,
             completed_trajectories (BatchTrajectory := ListStore_ops)
               (clear_completed_trajectories
                  (BatchTrajectory := ListStore_ops) s) = [])
    by (intros s; reflexivity).
  split; [exact Hlaw|].
  destruct (X15_nothing_is_harvested_twice
              (BatchTrajectory0 := ListStore_ops)
              (TrainerHooks0 := CountingHooks 1)
              false dumping_world "dump" busy_env Hlaw eq_refl eq_refl)
    as (env' & H1 & H2 & _).
  exists env'. split; assumption.
Defined.

Lemma X16_witness :
  let w1 := snd (dump_trajectories (BatchTrajectory0 := ListStore_ops)
                   (TrainerHooks0 := CountingHooks 1) true dumping_world) in
  dump_trajectories (BatchTrajectory0 := ListStore_ops)
    (TrainerHooks0 := CountingHooks 1) true dumping_world = (Returns tt, w1)
  /\ exists w2,
       dump_trajectories (BatchTrajectory0 := ListStore_ops)
         (TrainerHooks0 := CountingHooks 1) true w1 = (Returns tt, w2)
       /\ files (gfile w2) = files (gfile w1).
Proof.
  cbv zeta.
  assert (H : dump_trajectories (BatchTrajectory0 := ListStore_ops)
                (TrainerHooks0 := CountingHooks 1) true dumping_world
              = (Returns tt,
                 snd (dump_trajectories (BatchTrajectory0 := ListStore_ops)
                        (TrainerHooks0 := CountingHooks 1) true
                        dumping_world)))
    by (vm_compute; reflexivity).
  split; [exact H|].
  destruct (X16_forced_dump_twice (BatchTrajectory0 := ListStore_ops)
              (TrainerHooks0 := CountingHooks 1)
              dumping_world _ "dump" 0
              (sample_env [] []) eq_refl H)
    as (w2 & H1 & H2 & _); try reflexivity.
  exists w2. split; assumption.
Defined.

Lemma X17_witness :
  trajectory_dump_dir (self dumping_world) = Some "dump"
  /\ _train_env (self dumping_world) = Some busy_env
  /\ exists kept,
       py_filter has_any_action [episode 1; just_reset; no_steps]
       = Returns kept
       /\ kept `sublist_of` [episode 1; just_reset; no_steps].
Proof.
  split; [reflexivity|]. split; [reflexivity|].
  destruct (X17_harvest_keeps_order (BatchTrajectory0 := ListStore_ops)
              (TrainerHooks0 := CountingHooks 1)
              false dumping_world "dump" busy_env eq_refl eq_refl)
    as (kept & H1 & H2 & _).
  exists kept. split; [exact H1 | exact H2].
Defined.

Lemma X18_witness :
  let w := sample_world (sample_trainer busy_env None None 16 true []) empty_fs 0 in
  _async_mode (self w) = true /\ _output_dir (self w) = None
  /\ indicate_done w = (Raises TypeError, w).
Proof.
  cbv zeta. split; [reflexivity|]. split; [reflexivity|].
  apply (proj1 (X18_indicate_done_edges (Action := Z) (Observation := Z)
                  (St := ListStore) (U := Z)));
    reflexivity.
Defined.

Lemma X19_witness :
  _output_dir (self idle_world) = Some "out"
  /\ files (gfile (snd (indicate_done
                          (snd (in_self (async_mode_setter true) idle_world)))))
     = <[marker_path "out" := Raw ""]> (files (gfile idle_world)).
Proof.
  split; [reflexivity|].
  destruct (X19_async_mode_setter idle_world true "out" eq_refl)
    as (_ & _ & _ & _ & _ & _ & H).
  exact H.
Defined.

Lemma counting_hooks_preserve (step : Z) (I : ZWorld -> Prop) :
  (forall w e, I w -> I {| self := self w; gfile := gfile w; sub := e |}) ->
  hooks_preserve (TrainerHooks0 := CountingHooks step) I.
Proof.
  intros HI. split; cbn; auto.
Qed.

Lemma X20_witness :
  async_in "out" async_world
  /\ files (gfile (fst (snd (training_loop (BatchTrajectory0 := ListStore_ops)
                               (TrainerHooks0 := CountingHooks 1)
                               2 true (async_world, [])))))
     !! marker_path "out" = Some (Raw "").
Proof.
  assert (Hw : async_in "out" async_world) by (split; reflexivity).
  split; [exact Hw|].
  apply (X20_async_run_leaves_marker (BatchTrajectory0 := ListStore_ops)
           (TrainerHooks0 := CountingHooks 1) "out" 2 true async_world).
  - apply counting_hooks_preserve. intros w e H. exact H.
  - exact Hw.
  - vm_compute. exact I.
Defined.

Lemma X21_witness :
  _trainer_reset_called (self idle_world) = false
  /\ reset_done (fst (snd (training_loop (BatchTrajectory0 := ListStore_ops)
                             (TrainerHooks0 := CountingHooks 1)
                             2 true (idle_world, [])))).
Proof.
  split; [reflexivity|].
  apply (X21_reset_happens_once (BatchTrajectory0 := ListStore_ops)
           (TrainerHooks0 := CountingHooks 1) 2 true idle_world).
  apply counting_hooks_preserve. intros w e H. exact H.
Defined.
